(** * Macro tracker: a shallow embedding of [src/main.py]

    The program is a handful of tool functions, each of which opens the
    SQLite store, runs one or two statements and turns the outcome into a
    text reply.  The embedding keeps that shape:

    - Python [str] values are lists of Unicode code points, Python [float]
      values are binary64 floats;
    - the three tables are lists of rows in rowid order, with the
      AUTOINCREMENT counters next to them;
    - a statement either returns or raises; [try]/[except] is a match on
      that outcome;
    - the clock, the current date, the state of the database file and
      storage faults come from an explicit environment. *)

From Stdlib Require Import List Bool Arith ZArith NArith Lia.
From Stdlib Require Import String Ascii.
From Stdlib Require Import PrimFloat SpecFloat FloatOps FloatAxioms.
From Stdlib Require Import Permutation Sorted.
Import ListNotations.

Set Warnings "-inexact-float".
Local Open Scope list_scope.

(* ================================================================== *)
(** * Text *)

Module Text.

(** A Python [str] is a sequence of code points.  The texts meant are
    those SQLite stores and matches as they are: without NUL, which
    ends a text for LIKE, and without lone surrogates, which cannot be
    bound (binding one raises, see [fault] below). *)
Definition char := N.
Definition str := list char.

(** ASCII literals of the source.  The non-ASCII markers are given by
    code point below. *)
Definition lit (s : string) : str :=
  List.map N_of_ascii (list_ascii_of_string s).

Definition CHECK_MARK : str := [0x2705%N].            (* U+2705 *)
Definition CROSS_MARK : str := [0x274C%N].            (* U+274C *)
Definition DART : str := [0x1F3AF%N].                 (* U+1F3AF *)
Definition MEMO : str := [0x1F4DD%N].                 (* U+1F4DD *)
Definition RED_APPLE : str := [0x1F34E%N].            (* U+1F34E *)
Definition BULLET : str := [0x2022%N].                (* U+2022 *)
Definition FILE_FOLDER : str := [0x1F4C1%N].          (* U+1F4C1 *)
Definition BAR_CHART : str := [0x1F4CA%N].            (* U+1F4CA *)
Definition PLATE : str := [0x1F37D%N; 0xFE0F%N].      (* U+1F37D U+FE0F *)

Definition NL : str := [10%N].

(** [s * n] of Python. *)
Definition times (s : str) (n : nat) : str := List.concat (List.repeat s n).

Fixpoint str_eqb (a b : str) : bool :=
  match a, b with
  | [], [] => true
  | x :: a', y :: b' => N.eqb x y && str_eqb a' b'
  | _, _ => false
  end.

(** Comparison of two TEXT values under SQLite's BINARY collation:
    code point by code point, a proper prefix first. *)
Fixpoint str_compare (a b : str) : comparison :=
  match a, b with
  | [], [] => Eq
  | [], _ :: _ => Lt
  | _ :: _, [] => Gt
  | x :: a', y :: b' =>
      match N.compare x y with
      | Eq => str_compare a' b'
      | c => c
      end
  end.

Definition str_leb (a b : str) : bool :=
  match str_compare a b with Gt => false | _ => true end.

Definition str_ltb (a b : str) : bool :=
  match str_compare a b with Lt => true | _ => false end.

(** [s.startswith(p)] *)
Fixpoint startswith (p s : str) : bool :=
  match p, s with
  | [], _ => true
  | x :: p', y :: s' => N.eqb x y && startswith p' s'
  | _ :: _, [] => false
  end.

(** Decimal digits of a natural number. *)
Fixpoint uint_chars (u : Decimal.uint) : str :=
  match u with
  | Decimal.Nil => []
  | Decimal.D0 u => 48%N :: uint_chars u
  | Decimal.D1 u => 49%N :: uint_chars u
  | Decimal.D2 u => 50%N :: uint_chars u
  | Decimal.D3 u => 51%N :: uint_chars u
  | Decimal.D4 u => 52%N :: uint_chars u
  | Decimal.D5 u => 53%N :: uint_chars u
  | Decimal.D6 u => 54%N :: uint_chars u
  | Decimal.D7 u => 55%N :: uint_chars u
  | Decimal.D8 u => 56%N :: uint_chars u
  | Decimal.D9 u => 57%N :: uint_chars u
  end.

Definition decimal (n : N) : str := uint_chars (N.to_uint n).

End Text.
Import Text.

(* ================================================================== *)
(** * Floats *)

Module Real.

(** What a REAL column gives back for a stored float: a zero is kept
    as the integer 0, which reads back as [0.0] whatever its sign was. *)
Definition normal (x : float) : float :=
  if PrimFloat.eqb x 0%float then 0%float else x.

(** A Python float bound to a REAL column: NaN is bound as NULL
    ([None]). *)
Definition store_real (x : float) : option float :=
  if PrimFloat.is_nan x then None else Some (normal x).

(** [num / den] rounded to the nearest integer, ties to even. *)
Definition round_half_even (num den : Z) : Z :=
  let q := (num / den)%Z in
  let r := (num mod den)%Z in
  match (2 * r ?= den)%Z with
  | Lt => q
  | Gt => (q + 1)%Z
  | Eq => if Z.even q then q else (q + 1)%Z
  end.

(** The digits of [n / 10^prec] with [prec] decimals. *)
Definition fixed_digits (prec : nat) (n : N) : str :=
  let p := (10 ^ N.of_nat prec)%N in
  let frac := decimal (n mod p) in
  match prec with
  | O => decimal n
  | S _ => decimal (n / p) ++ lit "." ++
           List.repeat 48%N (prec - List.length frac) ++ frac
  end.

Definition sign_chars (s : bool) : str := if s then lit "-" else [].

(** [format(x, '.<prec>f')]: the exact binary value, correctly rounded
    to [prec] decimals, ties to even. *)
Definition format_fixed (prec : nat) (x : float) : str :=
  match Prim2SF x with
  | S754_nan => lit "nan"
  | S754_infinity s => sign_chars s ++ lit "inf"
  | S754_zero s => sign_chars s ++ fixed_digits prec 0
  | S754_finite s m e =>
      let scaled := (Z.pos m * 10 ^ Z.of_nat prec)%Z in
      let n := if (0 <=? e)%Z then (scaled * 2 ^ e)%Z
               else round_half_even scaled (2 ^ (- e))%Z in
      sign_chars s ++ fixed_digits prec (Z.to_N n)
  end.

End Real.
Import Real.

(* ================================================================== *)
(** * What the program takes from outside *)

(** Library functions the program calls and does not define. *)
Class Runtime := {
  (** [str(x)] of a float, as an f-string field without a format spec
      renders it. *)
  float_str : float -> str;
  (** [s.upper()] *)
  str_upper : str -> str;
  (** [os.path.expanduser("~/macro_tracker.db")] *)
  DB_PATH : str;
  (** The text SQLite's [||] operator makes of a REAL operand. *)
  sql_real_text : float -> str;
}.

(** What one call reads from its surroundings. *)
Record env := mkEnv {
  (** [date.today().isoformat()] *)
  today : str;
  (** CURRENT_TIMESTAMP, in seconds: SQLite's 'YYYY-MM-DD HH:MM:SS'
      text compares as the number of seconds does. *)
  now : N;
  (** [os.path.exists(DB_PATH)] and [os.path.getsize(DB_PATH)]:
      [None] when the file is absent. *)
  db_file : option N;
  (** [Some msg]: something fails in the [try] block of this call before
      anything is stored (the file cannot be opened, disk I/O error,
      locked database, missing table, a text that cannot be encoded,
      ...) and raises an exception other than [IntegrityError], whose
      text is [msg]. *)
  fault : option str;
}.

(** Exceptions: [sqlite3.IntegrityError] and every other [Exception]. *)
Inductive exn :=
| IntegrityError (msg : str)
| OtherError (msg : str).

(** [str(e)] *)
Definition exn_str (e : exn) : str :=
  match e with IntegrityError m => m | OtherError m => m end.

Inductive result (A : Type) :=
| Return (a : A)
| Raise (e : exn).
Arguments Return {A} a.
Arguments Raise {A} e.

Definition bind {A B} (r : result A) (k : A -> result B) : result B :=
  match r with
  | Return a => k a
  | Raise e => Raise e
  end.

Notation "x <- r ;; k" := (bind r (fun x => k))
  (at level 61, r at next level, right associativity).
Notation "r ;;; k" := (bind r (fun _ => k))
  (at level 61, right associativity).

Definition raised {A} (r : result A) : bool :=
  match r with Raise _ => true | Return _ => false end.

(* ================================================================== *)
(** * The store *)

(** A row of [foods]. *)
Record food := mkFood {
  f_id : Z;
  f_name : str;
  f_calories : float;
  f_protein : float;
  f_carbs : float;
  f_fat : float;
  f_created_at : N;
}.

(** A row of [daily_goals]. *)
Record goal := mkGoal {
  g_id : Z;
  g_date : str;
  g_target_calories : float;
  g_target_protein : float;
  g_target_carbs : float;
  g_target_fat : float;
  g_created_at : N;
}.

(** A row of [daily_intake].  [log_food_intake] is the only writer and
    always binds a [str] for [meal_type], so the column, nullable in the
    schema, holds a text in every row. *)
Record intake := mkIntake {
  i_id : Z;
  i_date : str;
  i_food_name : str;
  i_portion_description : str;
  i_calories : float;
  i_protein : float;
  i_carbs : float;
  i_fat : float;
  i_meal_type : str;
  i_created_at : N;
}.

(** The three tables in rowid order, each with its AUTOINCREMENT
    counter (the table's entry in [sqlite_sequence]). *)
Record db := mkDb {
  foods : list food;
  foods_seq : Z;
  daily_goals : list goal;
  daily_goals_seq : Z;
  daily_intake : list intake;
  daily_intake_seq : Z;
}.

(** The store right after [init_database] created it. *)
Definition empty_db : db := mkDb [] 0 [] 0 [] 0.

Definition with_foods (s : db) (l : list food) (n : Z) : db :=
  mkDb l n (daily_goals s) (daily_goals_seq s) (daily_intake s) (daily_intake_seq s).

Definition with_daily_goals (s : db) (l : list goal) (n : Z) : db :=
  mkDb (foods s) (foods_seq s) l n (daily_intake s) (daily_intake_seq s).

Definition with_daily_intake (s : db) (l : list intake) (n : Z) : db :=
  mkDb (foods s) (foods_seq s) (daily_goals s) (daily_goals_seq s) l n.

(* ================================================================== *)
(** * SQL *)

Module Sql.

(** [sqlite3.connect(DB_PATH)] and what follows it up to [commit]: a
    storage fault surfaces as an exception before anything is stored. *)
Definition connect (e : env) : result unit :=
  match fault e with
  | Some msg => Raise (OtherError msg)
  | None => Return tt
  end.

(** A float bound to a REAL NOT NULL column. *)
Definition not_null (column : string) (x : float) : result float :=
  match store_real x with
  | Some v => Return v
  | None => Raise (IntegrityError (lit "NOT NULL constraint failed: " ++ lit column))
  end.

(** <<INSERT OR REPLACE INTO daily_goals
       (date, target_calories, target_protein, target_carbs, target_fat)
       VALUES (?, ?, ?, ?, ?)>>
    A NULL in a NOT NULL column without default aborts the statement;
    a row with the same [date] (UNIQUE) is deleted before the insert. *)
Definition insert_or_replace_goal (t : N) (date_str : str)
    (target_calories target_protein target_carbs target_fat : float)
    (s : db) : result db :=
  c <- not_null "daily_goals.target_calories" target_calories ;;
  p <- not_null "daily_goals.target_protein" target_protein ;;
  cb <- not_null "daily_goals.target_carbs" target_carbs ;;
  f <- not_null "daily_goals.target_fat" target_fat ;;
  let id := (daily_goals_seq s + 1)%Z in
  let kept := List.filter (fun g => negb (str_eqb (g_date g) date_str)) (daily_goals s) in
  Return (with_daily_goals s (kept ++ [mkGoal id date_str c p cb f t]) id).

(** <<INSERT INTO foods (name, calories, protein, carbs, fat)
       VALUES (?, ?, ?, ?, ?)>>
    [name] is UNIQUE under the BINARY collation. *)
Definition insert_food (t : N) (name : str) (calories protein carbs fat : float)
    (s : db) : result db :=
  c <- not_null "foods.calories" calories ;;
  p <- not_null "foods.protein" protein ;;
  cb <- not_null "foods.carbs" carbs ;;
  f <- not_null "foods.fat" fat ;;
  if List.existsb (fun r => str_eqb (f_name r) name) (foods s)
  then Raise (IntegrityError (lit "UNIQUE constraint failed: foods.name"))
  else
    let id := (foods_seq s + 1)%Z in
    Return (with_foods s (foods s ++ [mkFood id name c p cb f t]) id).

(** <<INSERT INTO daily_intake
       (date, food_name, portion_description, calories, protein, carbs,
        fat, meal_type) VALUES (?, ?, ?, ?, ?, ?, ?, ?)>> *)
Definition insert_intake (t : N) (date_str food_name portion_description : str)
    (calories protein carbs fat : float) (meal_type : str)
    (s : db) : result db :=
  c <- not_null "daily_intake.calories" calories ;;
  p <- not_null "daily_intake.protein" protein ;;
  cb <- not_null "daily_intake.carbs" carbs ;;
  f <- not_null "daily_intake.fat" fat ;;
  let id := (daily_intake_seq s + 1)%Z in
  Return (with_daily_intake s
            (daily_intake s ++
             [mkIntake id date_str food_name portion_description c p cb f meal_type t])
            id).

(** The LIKE operator.  In a pattern ['%'] stands for any run of
    characters, ['_'] for any one character, every other character for
    itself, the ASCII letters without regard to case. *)
Definition PERCENT : char := 37%N.
Definition UNDERSCORE : char := 95%N.
Definition NUL : char := 0%N.

Definition ascii_lower (c : char) : char :=
  if (65 <=? c)%N && (c <=? 90)%N then (c + 32)%N else c.

Definition char_like (p c : char) : bool :=
  N.eqb (ascii_lower p) (ascii_lower c).

(** The comparison of a pattern with a text, both without NUL. *)
Fixpoint like_match (pattern : str) (s : str) {struct pattern} : bool :=
  match pattern with
  | [] => match s with [] => true | _ :: _ => false end
  | p :: pattern' =>
      if N.eqb p PERCENT then
        (fix any_suffix (s : str) : bool :=
           like_match pattern' s ||
           match s with
           | [] => false
           | _ :: s' => any_suffix s'
           end) s
      else
        match s with
        | [] => false
        | c :: s' => (N.eqb p UNDERSCORE || char_like p c) && like_match pattern' s'
        end
  end.

(** What LIKE reads of a text: the characters before its first NUL. *)
Fixpoint c_text (s : str) : str :=
  match s with
  | [] => []
  | c :: s' => if N.eqb c NUL then [] else c :: c_text s'
  end.

(** [s LIKE pattern]: pattern and text both end at their first NUL.
    SQLite refuses a pattern of more than 50000 bytes with the
    exception "LIKE or GLOB pattern too complex" when it comes to
    compare it with a row; a call in which that happens has a [fault]. *)
Definition like (pattern s : str) : bool := like_match (c_text pattern) (c_text s).

(** ORDER BY: the rows in key order, rows with equal keys in the order
    the table scan met them. *)
Fixpoint insert_by {A} (leb : A -> A -> bool) (x : A) (l : list A) : list A :=
  match l with
  | [] => [x]
  | y :: l' => if leb x y then x :: l else y :: insert_by leb x l'
  end.

Fixpoint order_by {A} (leb : A -> A -> bool) (l : list A) : list A :=
  match l with
  | [] => []
  | x :: l' => insert_by leb x (order_by leb l')
  end.

(** <<SELECT * FROM foods WHERE name LIKE ?>> *)
Definition select_foods_like (pattern : str) (s : db) : list food :=
  List.filter (fun r => like pattern (f_name r)) (foods s).

(** <<SELECT * FROM foods ORDER BY name>> *)
Definition name_leb (a b : food) : bool := str_leb (f_name a) (f_name b).

Definition select_foods_by_name (s : db) : list food :=
  order_by name_leb (foods s).

(** <<SELECT meal_type, food_name, portion_description, calories, protein,
            carbs, fat, created_at
       FROM daily_intake WHERE date = ? ORDER BY meal_type, created_at>> *)
Definition meal_leb (a b : intake) : bool :=
  match str_compare (i_meal_type a) (i_meal_type b) with
  | Lt => true
  | Gt => false
  | Eq => (i_created_at a <=? i_created_at b)%N
  end.

Definition select_meals (date_str : str) (s : db) : list intake :=
  order_by meal_leb (List.filter (fun r => str_eqb (i_date r) date_str) (daily_intake s)).

(** <<SELECT COUNT( * ) FROM foods>>, <<... FROM daily_intake>> and
    <<SELECT COUNT(DISTINCT date) FROM daily_goals>> *)
Definition count_foods (s : db) : N := N.of_nat (List.length (foods s)).
Definition count_intake (s : db) : N := N.of_nat (List.length (daily_intake s)).

Fixpoint distinct (l : list str) : list str :=
  match l with
  | [] => []
  | x :: l' => x :: List.filter (fun y => negb (str_eqb y x)) (distinct l')
  end.

Definition count_goal_days (s : db) : N :=
  N.of_nat (List.length (distinct (List.map g_date (daily_goals s)))).

End Sql.
Import Sql.

(* ================================================================== *)
(** * The tools *)

Section Tools.

Context {rt : Runtime}.

(** The value of an optional argument. *)
Definition or_default {A} (o : option A) (d : A) : A :=
  match o with Some a => a | None => d end.

(** ** [set_daily_goals] *)

Definition set_daily_goals_try (e : env)
    (target_calories target_protein target_carbs target_fat : float)
    (date_str : option str) (s : db) : result (db * str) :=
  let date_str := or_default date_str (today e) in
  connect e ;;;
  s' <- insert_or_replace_goal (now e) date_str
          target_calories target_protein target_carbs target_fat s ;;
  Return (s',
    CHECK_MARK ++ lit " Set daily goals for " ++ date_str ++ lit ":" ++ NL ++
    DART ++ lit " " ++ float_str target_calories ++ lit " calories, " ++
    float_str target_protein ++ lit "g protein, " ++
    float_str target_carbs ++ lit "g carbs, " ++
    float_str target_fat ++ lit "g fat").

Definition set_daily_goals (e : env)
    (target_calories target_protein target_carbs target_fat : float)
    (date_str : option str) (s : db) : db * str :=
  match set_daily_goals_try e target_calories target_protein target_carbs
          target_fat date_str s with
  | Return r => r
  | Raise ex => (s, CROSS_MARK ++ lit " Error setting goals: " ++ exn_str ex)
  end.

(** ** [add_food_to_database] *)

Definition add_food_to_database_try (e : env) (name : str)
    (calories protein carbs fat : float) (s : db) : result (db * str) :=
  connect e ;;;
  s' <- insert_food (now e) name calories protein carbs fat s ;;
  Return (s',
    CHECK_MARK ++ lit " Added " ++ name ++ lit " to food database" ++ NL ++
    lit "Reference values per 100g: " ++ float_str calories ++ lit " cal, " ++
    float_str protein ++ lit "g protein, " ++ float_str carbs ++
    lit "g carbs, " ++ float_str fat ++ lit "g fat").

Definition already_exists (name : str) : str :=
  CROSS_MARK ++ lit " Food '" ++ name ++ lit "' already exists in database".

Definition add_food_to_database (e : env) (name : str)
    (calories protein carbs fat : float) (s : db) : db * str :=
  match add_food_to_database_try e name calories protein carbs fat s with
  | Return r => r
  | Raise (IntegrityError _) => (s, already_exists name)
  | Raise ex => (s, CROSS_MARK ++ lit " Error adding food: " ++ exn_str ex)
  end.

(** ** [lookup_food] *)

Definition no_foods_matching (name : str) : str :=
  CROSS_MARK ++ lit " No foods found matching '" ++ name ++ lit "'".

Definition no_foods_yet : str :=
  MEMO ++ lit " No foods in database yet. Use add_food_to_database to add some.".

Definition food_line (r : food) : str :=
  BULLET ++ lit " " ++ f_name r ++ lit ": " ++ float_str (f_calories r) ++
  lit "cal, " ++ float_str (f_protein r) ++ lit "g protein, " ++
  float_str (f_carbs r) ++ lit "g carbs, " ++ float_str (f_fat r) ++
  lit "g fat" ++ NL.

Definition food_header : str :=
  RED_APPLE ++ lit " Food Database (per 100g)" ++ NL ++ times (lit "=") 30 ++ NL.

(** The part after the query: the "nothing yet" reply or the listing. *)
Definition food_listing (rows : list food) : str :=
  match rows with
  | [] => no_foods_yet
  | _ :: _ => List.fold_left (fun result r => result ++ food_line r) rows food_header
  end.

(** [if name:] holds for a string that is given and not empty. *)
Definition truthy (name : option str) : bool :=
  match name with
  | Some (_ :: _) => true
  | _ => false
  end.

Definition lookup_food_try (e : env) (name : option str) (s : db) : result str :=
  connect e ;;;
  if truthy name then
    let name := or_default name [] in
    let rows := select_foods_like ([PERCENT] ++ name ++ [PERCENT]) s in
    match rows with
    | [] => Return (no_foods_matching name)
    | _ :: _ => Return (food_listing rows)
    end
  else
    Return (food_listing (select_foods_by_name s)).

Definition lookup_food (e : env) (name : option str) (s : db) : db * str :=
  match lookup_food_try e name s with
  | Return r => (s, r)
  | Raise ex => (s, CROSS_MARK ++ lit " Error looking up foods: " ++ exn_str ex)
  end.

(** ** [log_food_intake] *)

Definition log_food_intake_try (e : env) (food_name : str)
    (calories protein carbs fat : float) (portion_description : str)
    (meal_type : option str) (date_str : option str) (s : db) : result (db * str) :=
  let meal_type := or_default meal_type (lit "other") in
  let date_str := or_default date_str (today e) in
  connect e ;;;
  s' <- insert_intake (now e) date_str food_name portion_description
          calories protein carbs fat meal_type s ;;
  Return (s',
    CHECK_MARK ++ lit " Logged " ++ portion_description ++ lit " of " ++
    food_name ++ lit " for " ++ meal_type ++ NL ++
    lit "Added: " ++ format_fixed 0 calories ++ lit " cal, " ++
    format_fixed 1 protein ++ lit "g protein, " ++
    format_fixed 1 carbs ++ lit "g carbs, " ++
    format_fixed 1 fat ++ lit "g fat").

Definition log_food_intake (e : env) (food_name : str)
    (calories protein carbs fat : float) (portion_description : str)
    (meal_type : option str) (date_str : option str) (s : db) : db * str :=
  match log_food_intake_try e food_name calories protein carbs fat
          portion_description meal_type date_str s with
  | Return r => r
  | Raise ex => (s, CROSS_MARK ++ lit " Error logging food: " ++ exn_str ex)
  end.

(** ** [get_database_info] *)

Definition get_database_info_try (e : env) (s : db) : result str :=
  let result :=
    FILE_FOLDER ++ lit " Database Information" ++ NL ++
    times (lit "=") 25 ++ NL ++
    lit "Location: " ++ DB_PATH ++ NL ++
    lit "Exists: " ++
    (match db_file e with
     | Some _ => CHECK_MARK ++ lit " Yes"
     | None => CROSS_MARK ++ lit " No"
     end) ++ NL in
  match db_file e with
  | Some file_size =>
      let result := result ++ lit "Size: " ++ decimal file_size ++ lit " bytes" ++ NL in
      connect e ;;;
      Return (result ++ NL ++ BAR_CHART ++ lit " Contents:" ++ NL ++
        BULLET ++ lit " " ++ decimal (count_foods s) ++ lit " foods in database" ++ NL ++
        BULLET ++ lit " " ++ decimal (count_intake s) ++ lit " food entries logged" ++ NL ++
        BULLET ++ lit " " ++ decimal (count_goal_days s) ++ lit " days with goals set" ++ NL)
  | None => Return result
  end.

Definition get_database_info (e : env) (s : db) : db * str :=
  match get_database_info_try e s with
  | Return r => (s, r)
  | Raise ex => (s, CROSS_MARK ++ lit " Error getting database info: " ++ exn_str ex)
  end.

(** ** [review_meals] *)

Definition no_meals_logged (date_str : str) : str :=
  PLATE ++ lit " No meals logged for " ++ date_str.

Definition meals_header (date_str : str) : str :=
  PLATE ++ lit " Meals for " ++ date_str ++ NL ++ times (lit "=") 30 ++ NL ++ NL.

Definition meal_heading (meal_type : str) : str :=
  PLATE ++ lit " " ++ str_upper meal_type ++ NL ++ times (lit "-") 15 ++ NL.

Definition meal_lines (r : intake) : str :=
  BULLET ++ lit " " ++ i_portion_description r ++ lit " " ++ i_food_name r ++ NL ++
  lit "  " ++ format_fixed 0 (i_calories r) ++ lit " cal | " ++
  format_fixed 1 (i_protein r) ++ lit "g protein | " ++
  format_fixed 1 (i_carbs r) ++ lit "g carbs | " ++
  format_fixed 1 (i_fat r) ++ lit "g fat" ++ NL ++ NL.

(** One turn of the loop over the fetched rows; the state is
    [(current_meal_type, result)]. *)
Definition meal_step (st : option str * str) (r : intake) : option str * str :=
  let '(current_meal_type, result) := st in
  let changed :=
    match current_meal_type with
    | Some m => negb (str_eqb (i_meal_type r) m)
    | None => true
    end in
  if changed
  then (Some (i_meal_type r), result ++ meal_heading (i_meal_type r) ++ meal_lines r)
  else (current_meal_type, result ++ meal_lines r).

Definition review_meals_try (e : env) (date_str : option str) (s : db) : result str :=
  let date_str := or_default date_str (today e) in
  connect e ;;;
  match select_meals date_str s with
  | [] => Return (no_meals_logged date_str)
  | meals => Return (snd (List.fold_left meal_step meals (None, meals_header date_str)))
  end.

Definition review_meals (e : env) (date_str : option str) (s : db) : db * str :=
  match review_meals_try e date_str s with
  | Return r => (s, r)
  | Raise ex => (s, CROSS_MARK ++ lit " Error reviewing meals: " ++ exn_str ex)
  end.

(** ** Calls and runs *)

Inductive call :=
| SetDailyGoals (target_calories target_protein target_carbs target_fat : float)
                (date_str : option str)
| AddFoodToDatabase (name : str) (calories protein carbs fat : float)
| LookupFood (name : option str)
| LogFoodIntake (food_name : str) (calories protein carbs fat : float)
                (portion_description : str) (meal_type date_str : option str)
| GetDatabaseInfo
| ReviewMeals (date_str : option str).

Definition invoke (e : env) (c : call) (s : db) : db * str :=
  match c with
  | SetDailyGoals tc tp tcb tf d => set_daily_goals e tc tp tcb tf d s
  | AddFoodToDatabase n c p cb f => add_food_to_database e n c p cb f s
  | LookupFood n => lookup_food e n s
  | LogFoodIntake n c p cb f pd m d => log_food_intake e n c p cb f pd m d s
  | GetDatabaseInfo => get_database_info e s
  | ReviewMeals d => review_meals e d s
  end.

(** Whether the [try] block of the call ran into an exception. *)
Definition fails (e : env) (c : call) (s : db) : bool :=
  match c with
  | SetDailyGoals tc tp tcb tf d => raised (set_daily_goals_try e tc tp tcb tf d s)
  | AddFoodToDatabase n c p cb f => raised (add_food_to_database_try e n c p cb f s)
  | LookupFood n => raised (lookup_food_try e n s)
  | LogFoodIntake n c p cb f pd m d => raised (log_food_intake_try e n c p cb f pd m d s)
  | GetDatabaseInfo => raised (get_database_info_try e s)
  | ReviewMeals d => raised (review_meals_try e d s)
  end.

(** A run of the server.  Each call reads the wall clock for
    CURRENT_TIMESTAMP; the reading of a call can be lower than that of
    the call before it, when the clock of the machine was set back in
    between. *)
Record event := mkEvent {
  ev_now : N;
  ev_today : str;
  ev_db_file : option N;
  ev_fault : option str;
  ev_call : call;
}.

(** The store, and the reading of the clock at the last call. *)
Record world := mkWorld {
  clock : N;
  store : db;
}.

Definition ev_env (ev : event) : env :=
  mkEnv (ev_today ev) (ev_now ev) (ev_db_file ev) (ev_fault ev).

Definition step (w : world) (ev : event) : world :=
  mkWorld (ev_now ev) (fst (invoke (ev_env ev) (ev_call ev) (store w))).

Definition run (w : world) (evs : list event) : world :=
  List.fold_left step evs w.

End Tools.

(* ================================================================== *)
(** * [init_database] *)

(** Initialization works on whatever file it finds, so here a table is
    what SQLite knows of it: the column names and, per row, one value
    for each column. *)
Module Schema.

Section Init.

Context {rt : Runtime}.

(** What a row holds in a column: NULL, an integer, a real or a text.
    (A BLOB is none of the values the program stores, and is left
    out.) *)
Inductive value :=
| Null
| Integer (z : Z)
| Real (x : float)
| Text (s : str).

Record table := mkTable {
  columns : list str;
  rows : list (list value);
}.

(** A table that does not exist is [None]. *)
Record database := mkDatabase {
  t_foods : option table;
  t_daily_goals : option table;
  t_daily_intake : option table;
}.

Definition foods_columns : list str :=
  List.map lit ["id"; "name"; "calories"; "protein"; "carbs"; "fat"; "created_at"]%string.

Definition daily_goals_columns : list str :=
  List.map lit ["id"; "date"; "target_calories"; "target_protein"; "target_carbs";
                "target_fat"; "created_at"]%string.

Definition daily_intake_columns : list str :=
  List.map lit ["id"; "date"; "food_name"; "portion_description"; "calories"; "protein";
                "carbs"; "fat"; "meal_type"; "created_at"]%string.

(** <<CREATE TABLE IF NOT EXISTS ...>> *)
Definition create_table_if_not_exists (cols : list str) (t : option table) : table :=
  match t with
  | Some t => t
  | None => mkTable cols []
  end.

(** [x in columns], Python's test on the names that
    <<PRAGMA table_info>> gave: the case of the letters matters. *)
Definition mem (x : str) (l : list str) : bool := List.existsb (str_eqb x) l.

(** SQLite takes the name of a column without regard to the case of
    its ASCII letters. *)
Definition same_name (a b : str) : bool :=
  str_eqb (List.map Sql.ascii_lower a) (List.map Sql.ascii_lower b).

(** Whether a statement that names the column [x] finds one. *)
Definition has_column (x : str) (cols : list str) : bool :=
  List.existsb (same_name x) cols.

Fixpoint index_of (x : str) (l : list str) : option nat :=
  match l with
  | [] => None
  | y :: l' => if same_name x y then Some O else option_map S (index_of x l')
  end.

(** The value a row holds in a column. *)
Definition column_value (cols : list str) (column : str) (row : list value) : value :=
  match index_of column cols with
  | Some i => List.nth i row Null
  | None => Null
  end.

Fixpoint set_nth (i : nat) (v : value) (row : list value) : list value :=
  match row, i with
  | [], _ => []
  | _ :: row', O => v :: row'
  | x :: row', S i' => x :: set_nth i' v row'
  end.

Definition set_column (cols : list str) (column : str) (v : value) (row : list value) : list value :=
  match index_of column cols with
  | Some i => set_nth i v row
  | None => row
  end.

(** <<ALTER TABLE t ADD COLUMN c ... DEFAULT v>>: refused when the
    table has a column of that name; else every row reads [v] in the
    new column. *)
Definition add_column (column : str) (default : value) (t : table) : result table :=
  if has_column column (columns t)
  then Raise (OtherError (lit "duplicate column name: " ++ column))
  else Return (mkTable (columns t ++ [column])
                 (List.map (fun row => row ++ [default]) (rows t))).

(** The text of a value as [||] sees it. *)
Definition value_text (v : value) : option str :=
  match v with
  | Null => None
  | Integer z => Some ((if (z <? 0)%Z then lit "-" else []) ++ decimal (Z.abs_N z))
  | Real x => Some (sql_real_text x)
  | Text s => Some s
  end.

(** [a || b]: NULL when an operand is, else the two texts joined. *)
Definition concat_values (a b : value) : value :=
  match value_text a, value_text b with
  | Some x, Some y => Text (x ++ y)
  | _, _ => Null
  end.

(** A double-quoted token in an expression of a statement on the
    table: the column of that name when the table has one, else the
    string. *)
Definition quoted (cols : list str) (token : str) (row : list value) : value :=
  match index_of token cols with
  | Some i => List.nth i row Null
  | None => Text token
  end.

(** [a = b] in a WHERE clause, for a column [a] of TEXT affinity that
    holds a text which is no number, as the new column does in every
    row when the UPDATE runs: true when [b] is the same text, under
    the column's BINARY collation, and not true for NULL, a number or
    another text. *)
Definition equals_text (a b : value) : bool :=
  match a, b with
  | Text x, Text y => str_eqb x y
  | _, _ => false
  end.

Definition UNKNOWN_PORTION : str := lit "unknown portion".
Definition PORTION_DESCRIPTION : str := lit "portion_description".
Definition SERVING_SIZE_G : str := lit "serving_size_g".
Definition G : str := lit "g".

(** <<UPDATE daily_intake SET portion_description = serving_size_g || "g"
       WHERE portion_description = "unknown portion">>
    Each of the two double-quoted tokens is a string only when the
    table has no column of that name. *)
Definition backfill_portion (t : table) : table :=
  let cols := columns t in
  mkTable cols
    (List.map
       (fun row =>
          if equals_text (column_value cols PORTION_DESCRIPTION row)
                         (quoted cols UNKNOWN_PORTION row)
          then set_column cols PORTION_DESCRIPTION
                 (concat_values (column_value cols SERVING_SIZE_G row) (quoted cols G row)) row
          else row)
       (rows t)).

(** The test that guards the migration. *)
Definition needs_migration (cols : list str) : bool :=
  mem SERVING_SIZE_G cols && negb (mem PORTION_DESCRIPTION cols).

(** The two statements of the migration.  In the ALTER the
    double-quoted token is the string in any case. *)
Definition migrate (t : table) : result table :=
  t <- add_column PORTION_DESCRIPTION (Text UNKNOWN_PORTION) t ;;
  Return (backfill_portion t).

(** The function is called at import, outside any [try]: the result is
    the store it leaves and the exception it raised, if any.  The
    CREATE TABLE statements are committed one by one, so what they
    created stays when a later statement raises. *)
Definition init_database (e : env) (d : database) : database * option exn :=
  match Sql.connect e with
  | Raise x => (d, Some x)
  | Return _ =>
      let t_foods := create_table_if_not_exists foods_columns (t_foods d) in
      let t_daily_goals := create_table_if_not_exists daily_goals_columns (t_daily_goals d) in
      let t_daily_intake :=
        create_table_if_not_exists daily_intake_columns (t_daily_intake d) in
      (* PRAGMA table_info(daily_intake) *)
      let columns := columns t_daily_intake in
      if needs_migration columns then
        match migrate t_daily_intake with
        | Return t => (mkDatabase (Some t_foods) (Some t_daily_goals) (Some t), None)
        | Raise x =>
            (mkDatabase (Some t_foods) (Some t_daily_goals) (Some t_daily_intake), Some x)
        end
      else (mkDatabase (Some t_foods) (Some t_daily_goals) (Some t_daily_intake), None)
  end.


End Init.

End Schema.

(* ================================================================== *)
(** * Vocabulary of the properties *)

(** None of the floats is NaN. *)
Definition all_numbers (l : list float) : bool :=
  List.forallb (fun x => negb (PrimFloat.is_nan x)) l.

(** The Daily Goal rows of a date. *)
Definition goals_for (d : str) (s : db) : list goal :=
  List.filter (fun g => str_eqb (g_date g) d) (daily_goals s).

(** The UNIQUE constraint on [daily_goals.date]. *)
Definition unique_dates (s : db) : Prop :=
  forall d, (List.length (goals_for d s) <= 1)%nat.

(** The Food References of a name. *)
Definition foods_named (n : str) (s : db) : list food :=
  List.filter (fun r => str_eqb (f_name r) n) (foods s).

(** The Intake Entries of a date, in insertion order. *)
Definition entries_for (d : str) (s : db) : list intake :=
  List.filter (fun r => str_eqb (i_date r) d) (daily_intake s).

(** [needle in hay], and the same without regard to the case of the
    ASCII letters. *)
Fixpoint occurs (needle hay : str) : bool :=
  startswith needle hay ||
  match hay with
  | [] => false
  | _ :: hay' => occurs needle hay'
  end.







(** Consecutive rows of one meal type, as one section. *)
Fixpoint sections (rows : list intake) : list (str * list intake) :=
  match rows with
  | [] => []
  | r :: rows' =>
      match sections rows' with
      | (m, l) :: rest =>
          if str_eqb (i_meal_type r) m
          then (m, r :: l) :: rest
          else (i_meal_type r, [r]) :: (m, l) :: rest
      | [] => [(i_meal_type r, [r])]
      end
  end.

(** The five meal types the docstring of [log_food_intake] names. *)
Definition MEAL_TYPES : list str :=
  List.map lit ["breakfast"; "lunch"; "dinner"; "snack"; "other"]%string.

(** The markers a reply can start with. *)
Definition MARKERS : list str :=
  [CHECK_MARK; CROSS_MARK; MEMO; RED_APPLE; FILE_FOLDER; PLATE].

(** The orders of the two listings: foods by name, meals by meal type
    and then by timestamp; and the strict order of the section
    headings. *)
Definition by_name (a b : food) : Prop := str_leb (f_name a) (f_name b) = true.








Section Vocabulary.

Context {rt : Runtime}.

(** One section of the review: the heading, then the entries. *)
Definition meal_section (sec : str * list intake) : str :=
  meal_heading (fst sec) ++ List.concat (List.map meal_lines (snd sec)).

(** What the loop adds for sections that start under the meal type
    [current]. *)
Definition render_sections (current : option str) (secs : list (str * list intake)) : str :=
  match secs with
  | [] => []
  | (m, l) :: rest =>
      (match current with
       | Some c => if str_eqb m c then [] else meal_heading m
       | None => meal_heading m
       end) ++
      List.concat (List.map meal_lines l) ++ List.concat (List.map meal_section rest)
  end.

(** What a call adds to [daily_intake]: nothing, or the one row of a
    Log Intake that did not fail. *)
Definition logged (e : env) (c : call) (s : db) : list intake :=
  match c with
  | LogFoodIntake n c' p cb f pd m d =>
      if fails e c s then []
      else [mkIntake (daily_intake_seq s + 1) (or_default d (today e)) n pd
              (normal c') (normal p) (normal cb) (normal f)
              (or_default m (lit "other")) (now e)]
  | _ => []
  end.

(** The meal types that the Log Intake calls of a run give. *)
Definition meal_types_given (evs : list event) : list str :=
  List.flat_map
    (fun ev =>
       match ev_call ev with
       | LogFoodIntake _ _ _ _ _ _ m _ => [or_default m (lit "other")]
       | _ => []
       end)
    evs.

(** A lookup by name that finds no row. *)
Definition no_match (c : call) (s : db) : bool :=
  match c with
  | LookupFood name =>
      truthy name &&
      match select_foods_like ([PERCENT] ++ or_default name [] ++ [PERCENT]) s with
      | [] => true
      | _ :: _ => false
      end
  | _ => false
  end.

End Vocabulary.

(** What the migration makes of a table of the old schema. *)
Section Migrated.

Import Schema.

Context {rt : Runtime}.


End Migrated.

(** Row ids that increase along a table and stay below its counter. *)
Definition increasing {A} (id : A -> Z) (seq : Z) (l : list A) : Prop :=
  StronglySorted (fun a b => (id a < id b)%Z) l /\ Forall (fun a => (id a <= seq)%Z) l.

Definition ids_increase (s : db) : Prop :=
  increasing f_id (foods_seq s) (foods s)
  /\ increasing g_id (daily_goals_seq s) (daily_goals s)
  /\ increasing i_id (daily_intake_seq s) (daily_intake s).

(** The names of the stored foods. *)
Definition food_names (s : db) : list str := List.map f_name (foods s).

(** Some stored food has the name. *)
Definition name_taken (name : str) (s : db) : bool :=
  List.existsb (fun r => str_eqb (f_name r) name) (foods s).

Section CallVocabulary.

Context {rt : Runtime}.

(** What a call adds to [foods]: nothing, or the one row of a Register
    Food that did not fail. *)
Definition registered (e : env) (c : call) (s : db) : list food :=
  match c with
  | AddFoodToDatabase n c' p cb f =>
      if fails e c s then []
      else [mkFood (foods_seq s + 1) n (normal c') (normal p) (normal cb) (normal f) (now e)]
  | _ => []
  end.

(** A Log Intake for the date [d]. *)
Definition logs_for (d : str) (e : env) (c : call) : bool :=
  match c with
  | LogFoodIntake _ _ _ _ _ _ _ date_str => str_eqb (or_default date_str (today e)) d
  | _ => false
  end.

(** A Set Daily Goal for a date that has no row yet. *)
Definition sets_new_date (e : env) (c : call) (s : db) : bool :=
  match c with
  | SetDailyGoals _ _ _ _ date_str =>
      negb (List.existsb (fun g => str_eqb (g_date g) (or_default date_str (today e)))
              (daily_goals s))
  | _ => false
  end.

(** The report of [get_database_info] up to the line on existence, and
    its part on the contents. *)
Definition info_head (exists_line : str) : str :=
  FILE_FOLDER ++ lit " Database Information" ++ NL ++
  times (lit "=") 25 ++ NL ++
  lit "Location: " ++ DB_PATH ++ NL ++
  lit "Exists: " ++ exists_line ++ NL.

Definition info_contents (n_foods n_intake n_goal_days : nat) : str :=
  NL ++ BAR_CHART ++ lit " Contents:" ++ NL ++
  BULLET ++ lit " " ++ decimal (N.of_nat n_foods) ++ lit " foods in database" ++ NL ++
  BULLET ++ lit " " ++ decimal (N.of_nat n_intake) ++ lit " food entries logged" ++ NL ++
  BULLET ++ lit " " ++ decimal (N.of_nat n_goal_days) ++ lit " days with goals set" ++ NL.

End CallVocabulary.

(** A runtime to run the examples with: [upper] on ASCII text, and
    floats written with one decimal, as [str] writes the floats the
    examples use. *)
Definition ascii_upper (c : char) : char :=
  if (97 <=? c)%N && (c <=? 122)%N then (c - 32)%N else c.

Definition sample_runtime : Runtime := {|
  float_str := format_fixed 1;
  str_upper := List.map ascii_upper;
  DB_PATH := lit "/home/user/macro_tracker.db";
  sql_real_text := format_fixed 1;
|}.

Definition sample_date : str := lit "2024-05-01".

Definition sample_env : env := mkEnv sample_date 1714550400 (Some 20480%N) None.

Definition later (seconds : N) : env :=
  mkEnv sample_date (now sample_env + seconds) (Some 20480%N) None.

Definition banana : call :=
  LogFoodIntake (lit "banana") 89 1.1 23 0.3 (lit "1 medium") (Some (lit "snack")) (Some sample_date).

(** A day: one food registered twice, goals set, four entries logged,
    two of them within the same second. *)
Definition sample_day : list event :=
  [ mkEvent 1714550400 sample_date (Some 20480%N) None
      (AddFoodToDatabase (lit "banana") 89 1.1 23 0.3);
    mkEvent 1714550402 sample_date (Some 20480%N) None
      (AddFoodToDatabase (lit "banana") 89 1.1 23 0.3);
    mkEvent 1714550405 sample_date (Some 20480%N) None (SetDailyGoals 2000 150 250 70 None);
    mkEvent 1714550465 sample_date (Some 20480%N) None banana;
    mkEvent 1714550465 sample_date (Some 20480%N) None
      (LogFoodIntake (lit "oatmeal") 150 5 27 3 (lit "1 cup") (Some (lit "breakfast")) None);
    mkEvent 1714550474 sample_date (Some 20480%N) None
      (LogFoodIntake (lit "apple") 95 0.5 25 0.3 (lit "1 medium") (Some (lit "snack")) None);
    mkEvent 1714550475 sample_date (Some 20480%N) (Some (lit "disk I/O error"))
      (LogFoodIntake (lit "tea") 2 0 0.5 0 (lit "1 cup") None None);
    mkEvent 1714550476 sample_date (Some 20480%N) None
      (LogFoodIntake (lit "tea") 2 0 0.5 0 (lit "1 cup") None None) ].

(** Two snacks logged around a correction of the clock: the second
    call reads a time one minute before the first. *)
Definition set_back_day : list event :=
  [ mkEvent 1714550500 sample_date (Some 20480%N) None
      (LogFoodIntake (lit "toast") 80 3 15 1 (lit "1 slice") (Some (lit "snack")) None);
    mkEvent 1714550440 sample_date (Some 20480%N) None
      (LogFoodIntake (lit "tea") 2 0 0.5 0 (lit "1 cup") (Some (lit "snack")) None) ].

Definition fresh : world := mkWorld (now sample_env) empty_db.

Definition evening : db := store (run (rt := sample_runtime) fresh sample_day).

Definition set_back_store : db := store (run (rt := sample_runtime) fresh set_back_day).

(** A store of the old schema, with two rows. *)
Definition old_intake : Schema.table :=
  Schema.mkTable
    (List.map lit ["id"; "date"; "food_name"; "serving_size_g"; "calories"]%string)
    [ [Schema.Integer 1; Schema.Text sample_date; Schema.Text (lit "rice"); Schema.Real 200;
       Schema.Real 260];
      [Schema.Integer 2; Schema.Text sample_date; Schema.Text (lit "egg"); Schema.Integer 50;
       Schema.Real 78] ].

Definition old_store : Schema.database := Schema.mkDatabase None None (Some old_intake).

Definition banana_row : food := mkFood 1 (lit "banana") 89 1.1 23 0.3 (now sample_env).

Definition after_banana : db :=
  fst (invoke (rt := sample_runtime) sample_env banana empty_db).

Definition brunch : call :=
  LogFoodIntake (lit "waffle") 310 6 45 12 (lit "2 pieces") (Some (lit "brunch")) (Some sample_date).

(** A call while another process holds the database. *)
Definition locked : env :=
  mkEnv sample_date (now sample_env) (Some 20480%N) (Some (lit "database is locked")).

(** A table of the old schema that has a column named g. *)
Definition old_intake_g : Schema.table :=
  Schema.mkTable
    (List.map lit ["id"; "serving_size_g"; "g"]%string)
    [ [Schema.Integer 1; Schema.Real 200; Schema.Text (lit "oz")];
      [Schema.Integer 2; Schema.Integer 50; Schema.Integer 7] ].

(** One that has a column named "Unknown Portion". *)
Definition old_intake_unknown : Schema.table :=
  Schema.mkTable
    (List.map lit ["id"; "serving_size_g"; "Unknown Portion"]%string)
    [ [Schema.Integer 1; Schema.Real 200; Schema.Text (lit "a")];
      [Schema.Integer 2; Schema.Real 50; Schema.Text (lit "unknown portion")];
      [Schema.Integer 3; Schema.Real 60; Schema.Null] ].

(** One whose portion description column is spelled with capitals. *)
Definition old_intake_capitals : Schema.table :=
  Schema.mkTable
    (List.map lit ["id"; "serving_size_g"; "Portion_Description"]%string)
    [ [Schema.Integer 1; Schema.Real 200; Schema.Text (lit "a")] ].

(** A table of the old schema with a NULL serving size. *)
Definition old_null_intake : Schema.table :=
  Schema.mkTable
    (List.map lit ["id"; "food_name"; "serving_size_g"]%string)
    [ [Schema.Integer 1; Schema.Text (lit "rice"); Schema.Null];
      [Schema.Integer 2; Schema.Text (lit "egg"); Schema.Integer 50] ].

(* ================================================================== *)
(** * Text and list facts *)

Lemma str_eqb_eq (a b : str) : str_eqb a b = true <-> a = b.
Proof.
  revert b; induction a as [|x a IH]; intros [|y b]; simpl; split;
    try congruence; try reflexivity.
  - rewrite andb_true_iff, N.eqb_eq, IH. intros [-> ->]. reflexivity.
  - intros H. injection H as -> ->. rewrite N.eqb_refl. simpl. apply IH. reflexivity.
Qed.

Lemma str_eqb_refl (a : str) : str_eqb a a = true.
Proof. apply str_eqb_eq. reflexivity. Qed.

Lemma str_eqb_neq (a b : str) : str_eqb a b = false <-> a <> b.
Proof.
  rewrite <- str_eqb_eq. destruct (str_eqb a b); split; congruence.
Qed.

Lemma str_eqb_sym (a b : str) : str_eqb a b = str_eqb b a.
Proof.
  destruct (str_eqb a b) eqn:E.
  - apply str_eqb_eq in E. subst. symmetry. apply str_eqb_refl.
  - apply str_eqb_neq in E. symmetry. apply str_eqb_neq. congruence.
Qed.

Lemma str_compare_eq (a b : str) : str_compare a b = Eq <-> a = b.
Proof.
  revert b; induction a as [|x a IH]; intros [|y b]; simpl; split;
    try congruence; try reflexivity.
  - destruct (N.compare_spec x y) as [-> | |]; try discriminate.
    intros H. apply IH in H. congruence.
  - intros H. injection H as -> ->. rewrite N.compare_refl. apply IH. reflexivity.
Qed.

Lemma str_compare_antisym (a b : str) :
  str_compare b a = CompOpp (str_compare a b).
Proof.
  revert b; induction a as [|x a IH]; intros [|y b]; simpl; try reflexivity.
  rewrite (N.compare_antisym x y).
  destruct (N.compare x y); simpl; auto.
Qed.

Lemma str_compare_lt_trans (a b c : str) :
  str_compare a b = Lt -> str_compare b c = Lt -> str_compare a c = Lt.
Proof.
  revert b c; induction a as [|x a IH]; intros [|y b] [|z c]; simpl;
    try congruence.
  destruct (N.compare_spec x y) as [-> | Hxy | Hxy]; try discriminate.
  - destruct (N.compare y z); try discriminate; eauto.
  - destruct (N.compare_spec y z) as [-> | Hyz | Hyz]; try discriminate; intros _ _.
    + apply N.compare_lt_iff in Hxy. rewrite Hxy. reflexivity.
    + assert (H : (x < z)%N) by lia. apply N.compare_lt_iff in H. rewrite H. reflexivity.
Qed.

Lemma startswith_app (p s : str) : startswith p (p ++ s) = true.
Proof.
  induction p as [|x p IH]; simpl; [reflexivity|].
  rewrite N.eqb_refl. exact IH.
Qed.

Lemma filter_filter_none {A} (f : A -> bool) (l : list A) :
  List.filter f (List.filter (fun x => negb (f x)) l) = [].
Proof.
  induction l as [|x l IH]; simpl; [reflexivity|].
  destruct (f x) eqn:E; simpl; [exact IH|]. rewrite E. exact IH.
Qed.

Lemma filter_filter_other {A} (f g : A -> bool) (l : list A) :
  (forall x, f x = true -> g x = false) ->
  List.filter f (List.filter (fun x => negb (g x)) l) = List.filter f l.
Proof.
  intros H. induction l as [|x l IH]; simpl; [reflexivity|].
  destruct (g x) eqn:G; simpl.
  - destruct (f x) eqn:F; [|exact IH]. rewrite (H x F) in G. discriminate.
  - destruct (f x); [f_equal|]; exact IH.
Qed.

Lemma fold_left_app_acc {A} (f : A -> str) (l : list A) (acc : str) :
  List.fold_left (fun result r => result ++ f r) l acc
  = acc ++ List.concat (List.map f l).
Proof.
  revert acc; induction l as [|x l IH]; intros acc; simpl.
  - rewrite app_nil_r. reflexivity.
  - rewrite IH, <- app_assoc. reflexivity.
Qed.

(* ================================================================== *)
(** * Floats read back *)

Lemma SFeqb_refl (f : spec_float) : f <> S754_nan -> SFeqb f f = true.
Proof.
  unfold SFeqb, SFcompare.
  destruct f as [[|] | [|] | | [|] m e]; intros H; try reflexivity;
    try congruence; rewrite Z.compare_refl, Pos.compare_cont_refl; reflexivity.
Qed.

Lemma is_nan_false_Prim2SF (x : float) :
  PrimFloat.is_nan x = false -> Prim2SF x <> S754_nan.
Proof.
  unfold PrimFloat.is_nan. rewrite eqb_spec. intros H E.
  rewrite E in H. discriminate.
Qed.

(** The float read back is the float stored, as a number. *)
Lemma normal_same_number (x : float) :
  PrimFloat.is_nan x = false -> PrimFloat.eqb (normal x) x = true.
Proof.
  intros H. unfold normal. destruct (PrimFloat.eqb x 0) eqn:E.
  - rewrite eqb_spec in *. unfold SFeqb in *.
    destruct (Prim2SF x) as [[|] | [|] | | [|] m e]; simpl in *; try discriminate; reflexivity.
  - rewrite eqb_spec. apply SFeqb_refl, is_nan_false_Prim2SF, H.
Qed.

Lemma store_real_some (x : float) :
  PrimFloat.is_nan x = false -> store_real x = Some (normal x).
Proof. intros H. unfold store_real. rewrite H. reflexivity. Qed.

Lemma store_real_none (x : float) :
  PrimFloat.is_nan x = true -> store_real x = None.
Proof. intros H. unfold store_real. rewrite H. reflexivity. Qed.

Lemma normal_all_numbers (l : list float) :
  all_numbers l = true ->
  List.forallb (fun x => PrimFloat.eqb (normal x) x) l = true.
Proof.
  induction l as [|x l IH]; simpl; [reflexivity|].
  rewrite andb_true_iff, negb_true_iff. intros [Hx Hl].
  rewrite normal_same_number by exact Hx. apply IH, Hl.
Qed.

(* ================================================================== *)
(** * Daily goals *)

Section Goals.

Context {rt : Runtime}.

Lemma not_null_number (column : string) (x : float) :
  PrimFloat.is_nan x = false -> not_null column x = Return (normal x).
Proof. intros H. unfold not_null. rewrite store_real_some by exact H. reflexivity. Qed.

Lemma not_null_nan (column : string) (x : float) :
  PrimFloat.is_nan x = true ->
  not_null column x =
  Raise (IntegrityError (lit "NOT NULL constraint failed: " ++ lit column)).
Proof. intros H. unfold not_null. rewrite store_real_none by exact H. reflexivity. Qed.

Ltac split_numbers H :=
  unfold all_numbers in H; simpl in H;
  repeat rewrite andb_true_iff in H; repeat rewrite negb_true_iff in H;
  destruct H as (? & ? & ? & ? & _).

Lemma insert_or_replace_goal_numbers t d a b c f s :
  all_numbers [a; b; c; f] = true ->
  insert_or_replace_goal t d a b c f s =
  Return (with_daily_goals s
            (List.filter (fun g => negb (str_eqb (g_date g) d)) (daily_goals s) ++
             [mkGoal (daily_goals_seq s + 1) d (normal a) (normal b) (normal c) (normal f) t])
            (daily_goals_seq s + 1)).
Proof.
  intros H. split_numbers H. unfold insert_or_replace_goal.
  repeat (rewrite not_null_number by assumption; simpl). reflexivity.
Qed.

Lemma insert_or_replace_goal_nan t d a b c f s :
  all_numbers [a; b; c; f] = false ->
  exists msg, insert_or_replace_goal t d a b c f s = Raise (IntegrityError msg).
Proof.
  unfold all_numbers, insert_or_replace_goal, not_null, store_real. simpl.
  destruct (PrimFloat.is_nan a); simpl; [eauto|].
  destruct (PrimFloat.is_nan b); simpl; [eauto|].
  destruct (PrimFloat.is_nan c); simpl; [eauto|].
  destruct (PrimFloat.is_nan f); simpl; [eauto|]. discriminate.
Qed.

(** When the call fails. *)
Lemma set_daily_goals_fails e a b c f d s :
  fails e (SetDailyGoals a b c f d) s =
  match fault e with
  | Some _ => true
  | None => negb (all_numbers [a; b; c; f])
  end.
Proof.
  unfold fails, set_daily_goals_try, connect.
  destruct (fault e); [reflexivity|]. cbn [bind].
  destruct (all_numbers [a; b; c; f]) eqn:E.
  - rewrite insert_or_replace_goal_numbers by exact E. reflexivity.
  - destruct (insert_or_replace_goal_nan (now e) (or_default d (today e)) a b c f s E)
      as [msg ->]. reflexivity.
Qed.

(** The store after a call that did not fail, and after one that did. *)
Lemma set_daily_goals_done e a b c f d s :
  fails e (SetDailyGoals a b c f d) s = false ->
  fst (set_daily_goals e a b c f d s) =
  with_daily_goals s
    (List.filter (fun g => negb (str_eqb (g_date g) (or_default d (today e))))
       (daily_goals s) ++
     [mkGoal (daily_goals_seq s + 1) (or_default d (today e))
        (normal a) (normal b) (normal c) (normal f) (now e)])
    (daily_goals_seq s + 1).
Proof.
  rewrite set_daily_goals_fails. unfold set_daily_goals, set_daily_goals_try, connect.
  destruct (fault e); [discriminate|]. rewrite negb_false_iff. intros E. simpl.
  rewrite insert_or_replace_goal_numbers by exact E. reflexivity.
Qed.

Lemma set_daily_goals_failed e a b c f d s :
  fails e (SetDailyGoals a b c f d) s = true ->
  fst (set_daily_goals e a b c f d s) = s.
Proof.
  simpl. unfold set_daily_goals.
  destruct (set_daily_goals_try e a b c f d s); [discriminate|reflexivity].
Qed.

Lemma goals_for_replaced (d d' : str) (g : goal) (l : list goal) (n : Z) (s : db) :
  g_date g = d ->
  goals_for d' (with_daily_goals s
     (List.filter (fun g => negb (str_eqb (g_date g) d)) l ++ [g]) n)
  = if str_eqb d d' then [g]
    else List.filter (fun g => str_eqb (g_date g) d') l.
Proof.
  intros Hg. unfold goals_for. simpl. rewrite filter_app. simpl. rewrite Hg.
  destruct (str_eqb d d') eqn:E.
  - apply str_eqb_eq in E. subst d'.
    rewrite (filter_filter_none (fun g0 => str_eqb (g_date g0) d)). reflexivity.
  - rewrite app_nil_r. apply filter_filter_other.
    intros x Hx. apply str_eqb_eq in Hx. rewrite Hx, str_eqb_sym. exact E.
Qed.

Lemma set_daily_goals_unique e a b c f d s :
  unique_dates s -> unique_dates (fst (set_daily_goals e a b c f d s)).
Proof.
  intros U. destruct (fails e (SetDailyGoals a b c f d) s) eqn:F.
  - rewrite set_daily_goals_failed by exact F. exact U.
  - rewrite set_daily_goals_done by exact F. intros d'.
    rewrite goals_for_replaced by reflexivity.
    destruct (str_eqb _ d'); [simpl; lia | apply U].
Qed.

(** Only [set_daily_goals] writes [daily_goals]. *)
Lemma invoke_daily_goals e c s :
  (forall a b cb f d, c <> SetDailyGoals a b cb f d) ->
  daily_goals (fst (invoke e c s)) = daily_goals s.
Proof.
  intros H. destruct c; simpl.
  - exfalso. eapply H. reflexivity.
  - unfold add_food_to_database, add_food_to_database_try, insert_food, connect, not_null.
    destruct (fault e); simpl; [reflexivity|].
    repeat (match goal with |- context [store_real ?x] => destruct (store_real x) end;
            simpl; [|reflexivity]).
    destruct (List.existsb _ _); reflexivity.
  - unfold lookup_food. destruct (lookup_food_try e name s); reflexivity.
  - unfold log_food_intake, log_food_intake_try, insert_intake, connect, not_null.
    destruct (fault e); simpl; [reflexivity|].
    repeat (match goal with |- context [store_real ?x] => destruct (store_real x) end;
            simpl; [|reflexivity]).
    reflexivity.
  - unfold get_database_info. destruct (get_database_info_try e s); reflexivity.
  - unfold review_meals. destruct (review_meals_try e date_str s); reflexivity.
Qed.

Lemma invoke_unique e c s :
  unique_dates s -> unique_dates (fst (invoke e c s)).
Proof.
  intros U. destruct c;
    try (intros d; unfold goals_for; rewrite invoke_daily_goals by discriminate; apply U).
  apply set_daily_goals_unique, U.
Qed.

Lemma run_unique (evs : list event) (w : world) :
  unique_dates (store w) -> unique_dates (store (run w evs)).
Proof.
  revert w; induction evs as [|ev evs IH]; intros w U; simpl; [exact U|].
  apply IH. simpl. apply invoke_unique, U.
Qed.

(** C1.  Whatever calls are made on a store that has at most one
    Daily Goal row per date, it still has at most one per date
    afterwards; and after two Set Daily Goal calls for the same date,
    the second of which did not fail, there is exactly one row for that
    date, holding the date, the four targets (as numbers: a zero is
    read back without its sign) and the timestamp of the second call.
    A call fails only on a storage fault or on a NaN target. *)
Theorem set_daily_goals_one_row_per_date :
  (forall (w : world) (evs : list event) (d : str),
      unique_dates (store w) ->
      (List.length (goals_for d (store (run w evs))) <= 1)%nat)
  /\
  (forall (e1 e2 : env) (a1 a2 a3 a4 b1 b2 b3 b4 : float)
          (d1 d2 : option str) (d : str) (s : db),
      or_default d1 (today e1) = d ->
      or_default d2 (today e2) = d ->
      let s1 := fst (set_daily_goals e1 a1 a2 a3 a4 d1 s) in
      let s2 := fst (set_daily_goals e2 b1 b2 b3 b4 d2 s1) in
      fails e2 (SetDailyGoals b1 b2 b3 b4 d2) s1 = false ->
      goals_for d s2 =
      [mkGoal (daily_goals_seq s1 + 1) d
         (normal b1) (normal b2) (normal b3) (normal b4) (now e2)]
      /\ List.forallb (fun x => PrimFloat.eqb (normal x) x) [b1; b2; b3; b4] = true)
  /\
  (forall (e : env) (b1 b2 b3 b4 : float) (d : option str) (s : db),
      fault e = None ->
      all_numbers [b1; b2; b3; b4] = true ->
      fails e (SetDailyGoals b1 b2 b3 b4 d) s = false).
Proof.
  split; [|split].
  - intros w evs d U. apply run_unique, U.
  - intros e1 e2 a1 a2 a3 a4 b1 b2 b3 b4 d1 d2 d s _ H2 s1 s2 F. split.
    + subst s2. rewrite set_daily_goals_done by exact F.
      rewrite H2, goals_for_replaced by reflexivity.
      rewrite str_eqb_refl. reflexivity.
    + rewrite set_daily_goals_fails in F. destruct (fault e2); [discriminate|].
      apply normal_all_numbers, negb_false_iff, F.
  - intros e b1 b2 b3 b4 d s Hf Hn.
    rewrite set_daily_goals_fails, Hf, Hn. reflexivity.
Qed.

End Goals.

(* ================================================================== *)
(** * ORDER BY *)

Section OrderBy.

Context {A : Type} (leb : A -> A -> bool).

Let le (a b : A) : Prop := leb a b = true.

Hypothesis leb_total : forall a b, leb a b = true \/ leb b a = true.
Hypothesis leb_trans : forall a b c, leb a b = true -> leb b c = true -> leb a c = true.

Lemma insert_by_perm (x : A) (l : list A) : Permutation (insert_by leb x l) (x :: l).
Proof.
  induction l as [|y l IH]; simpl; [reflexivity|].
  destruct (leb x y); [reflexivity|].
  rewrite IH. apply perm_swap.
Qed.

Lemma order_by_perm (l : list A) : Permutation (order_by leb l) l.
Proof.
  induction l as [|x l IH]; simpl; [reflexivity|].
  rewrite insert_by_perm, IH. reflexivity.
Qed.

Lemma insert_by_sorted (x : A) (l : list A) :
  Sorted le l -> Sorted le (insert_by leb x l).
Proof.
  induction l as [|y l IH]; simpl; intros S.
  - repeat constructor.
  - destruct (leb x y) eqn:E.
    + constructor; [exact S|]. constructor. exact E.
    + inversion S as [|? ? S' Hd]; subst.
      constructor; [apply IH, S'|].
      assert (Hyx : le y x) by (destruct (leb_total x y); [congruence|assumption]).
      destruct l as [|z l]; simpl.
      * constructor. exact Hyx.
      * destruct (leb x z); constructor; [exact Hyx|].
        inversion Hd; subst. assumption.
Qed.

Lemma order_by_sorted (l : list A) : StronglySorted le (order_by leb l).
Proof.
  apply Sorted_StronglySorted.
  - intros a b c. apply leb_trans.
  - induction l as [|x l IH]; simpl; [constructor|].
    apply insert_by_sorted, IH.
Qed.

End OrderBy.



Lemma str_leb_total (a b : str) : str_leb a b = true \/ str_leb b a = true.
Proof.
  unfold str_leb. rewrite (str_compare_antisym a b).
  destruct (str_compare a b); simpl; auto.
Qed.

Lemma str_leb_trans (a b c : str) :
  str_leb a b = true -> str_leb b c = true -> str_leb a c = true.
Proof.
  unfold str_leb.
  destruct (str_compare a b) eqn:Eab; try discriminate; intros _.
  - apply str_compare_eq in Eab. subst. trivial.
  - destruct (str_compare b c) eqn:Ebc; try discriminate; intros _.
    + apply str_compare_eq in Ebc. subst. rewrite Eab. reflexivity.
    + rewrite (str_compare_lt_trans a b c Eab Ebc). reflexivity.
Qed.

(* ================================================================== *)
(** * LIKE *)


















(* ================================================================== *)
(** * Food references *)

Section Foods.

Context {rt : Runtime}.

Lemma select_foods_by_name_perm (s : db) : Permutation (select_foods_by_name s) (foods s).
Proof. apply order_by_perm. Qed.

Lemma select_foods_by_name_sorted (s : db) : StronglySorted by_name (select_foods_by_name s).
Proof.
  apply (order_by_sorted name_leb).
  - intros a b. apply str_leb_total.
  - intros a b c. apply str_leb_trans.
Qed.

Lemma food_listing_rows (rows : list food) :
  food_listing rows =
  match rows with
  | [] => no_foods_yet
  | _ :: _ => food_header ++ List.concat (List.map food_line rows)
  end.
Proof.
  destruct rows as [|r rows]; [reflexivity|].
  unfold food_listing. apply fold_left_app_acc.
Qed.

(** The reply of [lookup_food] when the storage layer works. *)
Lemma lookup_food_reply (e : env) (name : option str) (s : db) :
  fault e = None ->
  snd (lookup_food e name s) =
  if truthy name then
    match select_foods_like ([PERCENT] ++ or_default name [] ++ [PERCENT]) s with
    | [] => no_foods_matching (or_default name [])
    | rows => food_listing rows
    end
  else food_listing (select_foods_by_name s).
Proof.
  intros F. unfold lookup_food, lookup_food_try, connect. rewrite F. cbn [bind].
  destruct (truthy name); [|reflexivity].
  destruct (select_foods_like _ s); reflexivity.
Qed.

Lemma lookup_food_fault (e : env) (name : option str) (s : db) (msg : str) :
  fault e = Some msg ->
  snd (lookup_food e name s) = CROSS_MARK ++ lit " Error looking up foods: " ++ msg.
Proof.
  intros F. unfold lookup_food, lookup_food_try, connect. rewrite F. reflexivity.
Qed.

Lemma truthy_some (name : str) : truthy (Some name) = true <-> name <> [].
Proof. destruct name; simpl; split; congruence. Qed.

Lemma truthy_false (name : option str) :
  truthy name = false <-> name = None \/ name = Some [].
Proof.
  destruct name as [[|c n]|]; simpl; split; try congruence; auto;
    intros [H|H]; congruence.
Qed.

Lemma listing_not_empty_reply (r : food) (rows : list food) :
  food_listing (r :: rows) <> no_foods_yet.
Proof. rewrite food_listing_rows. discriminate. Qed.

Lemma listing_not_no_match (rows : list food) (n : str) :
  food_listing rows <> no_foods_matching n.
Proof. rewrite food_listing_rows. destruct rows; discriminate. Qed.

(** ** Registering *)

Lemma insert_food_numbers t name c p cb f s :
  all_numbers [c; p; cb; f] = true ->
  insert_food t name c p cb f s =
  if List.existsb (fun r => str_eqb (f_name r) name) (foods s)
  then Raise (IntegrityError (lit "UNIQUE constraint failed: foods.name"))
  else Return (with_foods s
                 (foods s ++
                  [mkFood (foods_seq s + 1) name (normal c) (normal p) (normal cb)
                     (normal f) t])
                 (foods_seq s + 1)).
Proof.
  intros H. unfold all_numbers in H. simpl in H.
  repeat rewrite andb_true_iff in H. repeat rewrite negb_true_iff in H.
  destruct H as (? & ? & ? & ? & _). unfold insert_food.
  repeat (rewrite not_null_number by assumption; cbn [bind]). reflexivity.
Qed.

Lemma existsb_foods_named (name : str) (s : db) :
  List.existsb (fun r => str_eqb (f_name r) name) (foods s) = false <->
  foods_named name s = [].
Proof.
  unfold foods_named. induction (foods s) as [|r l IH]; simpl; [tauto|].
  destruct (str_eqb (f_name r) name); simpl; [split; discriminate|exact IH].
Qed.

(** Register Food on numbers that are not NaN, the storage layer
    working: the duplicate reply exactly for a name that is there, and
    for a new name one more row, all others untouched. *)
Lemma add_food_to_database_numbers (e : env) (name : str) (c p cb f : float) (s : db) :
  fault e = None ->
  all_numbers [c; p; cb; f] = true ->
  let out := add_food_to_database e name c p cb f s in
  (foods_named name s <> [] -> out = (s, already_exists name))
  /\ (foods_named name s = [] ->
      fst out = with_foods s
                  (foods s ++
                   [mkFood (foods_seq s + 1) name (normal c) (normal p) (normal cb)
                      (normal f) (now e)])
                  (foods_seq s + 1)
      /\ startswith CHECK_MARK (snd out) = true).
Proof.
  intros F H out. subst out.
  unfold add_food_to_database, add_food_to_database_try, connect.
  rewrite F. cbn [bind]. rewrite insert_food_numbers by exact H.
  destruct (List.existsb _ (foods s)) eqn:E.
  - split; [reflexivity|]. intros N. apply existsb_foods_named in N. congruence.
  - split; [|intros _; split; reflexivity].
    intros N. apply existsb_foods_named in E. contradiction.
Qed.


(** C2.  Register Food with a NaN among its values and a name that no
    Food Reference has answers with the duplicate reply: the NULL that
    SQLite stores for NaN violates NOT NULL, which raises the same
    [IntegrityError] as a duplicate name does. *)
Theorem add_food_to_database_nan_is_reported_duplicate :
  forall (e : env) (name : str) (protein carbs fat : float) (s : db),
    fault e = None ->
    foods_named name s = [] ->
    add_food_to_database e name nan protein carbs fat s = (s, already_exists name).
Proof.
  intros e name protein carbs fat s F _.
  unfold add_food_to_database, add_food_to_database_try, connect. rewrite F. reflexivity.
Qed.


(** C4 (amended).  With a name that is not empty and no matching row,
    be the store empty or not, the reply is "no foods found matching";
    "no foods yet" is the reply exactly when no name (or the empty
    one) is given and the store has no food; the two texts differ. *)
Theorem lookup_food_empty_results :
  forall (e : env) (s : db),
    fault e = None ->
    (forall name : str,
        name <> [] ->
        select_foods_like ([PERCENT] ++ name ++ [PERCENT]) s = [] ->
        snd (lookup_food e (Some name) s) = no_foods_matching name)
    /\
    (forall name : option str,
        snd (lookup_food e name s) = no_foods_yet <->
        truthy name = false /\ foods s = [])
    /\
    (forall name : str, no_foods_matching name <> no_foods_yet).
Proof.
  intros e s F. split; [|split].
  - intros name N E. apply truthy_some in N.
    rewrite lookup_food_reply, N by exact F. simpl or_default. rewrite E. reflexivity.
  - intros name. rewrite lookup_food_reply by exact F.
    destruct (truthy name) eqn:T.
    + split; [|intros [? _]; discriminate].
      destruct (select_foods_like _ s) as [|r rows]; [discriminate|].
      intros H. apply listing_not_empty_reply in H. contradiction.
    + pose proof (select_foods_by_name_perm s) as P.
      destruct (select_foods_by_name s) as [|r rows].
      * apply Permutation_nil in P. rewrite P. split; auto.
      * split.
        -- intros H. apply listing_not_empty_reply in H. contradiction.
        -- intros [_ E]. rewrite E in P. apply Permutation_sym, Permutation_nil in P.
           discriminate.
  - intros name. discriminate.
Qed.

(** C10.  Lookup Food with the empty string does what it does without
    a name: it lists every food, ordered by name, one line for each,
    or says that there are no foods yet, and never says that no food
    matches. *)
Theorem lookup_food_empty_name :
  let line := fun r : food =>
    BULLET ++ lit " " ++ f_name r ++ lit ": " ++ float_str (f_calories r) ++
    lit "cal, " ++ float_str (f_protein r) ++ lit "g protein, " ++
    float_str (f_carbs r) ++ lit "g carbs, " ++ float_str (f_fat r) ++
    lit "g fat" ++ NL in
  let listing := fun rows : list food =>
    RED_APPLE ++ lit " Food Database (per 100g)" ++ NL ++ times (lit "=") 30 ++ NL ++
    List.concat (List.map line rows) in
  (forall (e : env) (s : db), lookup_food e (Some []) s = lookup_food e None s)
  /\
  (forall (d : str) (t : N) (file : option N) (s : db),
      exists rows,
        Permutation rows (foods s) /\ StronglySorted by_name rows /\
        snd (lookup_food (mkEnv d t file None) (Some []) s) =
        match rows with
        | [] => MEMO ++ lit " No foods in database yet. Use add_food_to_database to add some."
        | _ :: _ => listing rows
        end)
  /\
  (forall (e : env) (s : db) (name : str),
      snd (lookup_food e (Some []) s) <> no_foods_matching name).
Proof.
  intros line listing. split; [|split].
  - reflexivity.
  - intros d t file s. exists (select_foods_by_name s).
    split; [apply select_foods_by_name_perm|].
    split; [apply select_foods_by_name_sorted|].
    rewrite lookup_food_reply by reflexivity. rewrite food_listing_rows. reflexivity.
  - intros e s name. destruct (fault e) as [msg|] eqn:F.
    + rewrite (lookup_food_fault e _ s msg F). discriminate.
    + rewrite lookup_food_reply by exact F. apply listing_not_no_match.
Qed.

End Foods.

(* ================================================================== *)
(** * Intake entries and their review *)

Section Meals.

Context {rt : Runtime}.

Arguments meal_heading : simpl never.
Arguments meal_lines : simpl never.
Arguments meals_header : simpl never.

Lemma meal_section_pair (m : str) (l : list intake) :
  meal_section (m, l) = meal_heading m ++ List.concat (List.map meal_lines l).
Proof. reflexivity. Qed.

Lemma render_sections_none (secs : list (str * list intake)) :
  render_sections None secs = List.concat (List.map meal_section secs).
Proof.
  destruct secs as [|[m l] rest]; [reflexivity|].
  cbn [render_sections List.map List.concat].
  rewrite meal_section_pair, <- app_assoc. reflexivity.
Qed.

Lemma render_sections_other (m : str) (secs : list (str * list intake)) (m' : str) (l : list intake) :
  str_eqb m' m = false ->
  render_sections (Some m) ((m', l) :: secs)
  = List.concat (List.map meal_section ((m', l) :: secs)).
Proof.
  intros E. cbn [render_sections List.map List.concat].
  rewrite E, meal_section_pair, <- app_assoc. reflexivity.
Qed.

Lemma render_sections_same (m : str) (secs : list (str * list intake)) (l : list intake) :
  render_sections (Some m) ((m, l) :: secs)
  = List.concat (List.map meal_lines l) ++ List.concat (List.map meal_section secs).
Proof. cbn [render_sections]. rewrite str_eqb_refl. reflexivity. Qed.

Lemma meal_loop (rows : list intake) (current : option str) (acc : str) :
  snd (List.fold_left meal_step rows (current, acc))
  = acc ++ render_sections current (sections rows).
Proof.
  revert current acc; induction rows as [|r rows IH]; intros current acc.
  - simpl. rewrite app_nil_r. reflexivity.
  - cbn [List.fold_left].
    assert (Hstep : exists pre,
      meal_step (current, acc) r = (Some (i_meal_type r), acc ++ pre ++ meal_lines r)
      /\ pre = match current with
               | Some c => if str_eqb (i_meal_type r) c then [] else meal_heading (i_meal_type r)
               | None => meal_heading (i_meal_type r)
               end).
    { unfold meal_step. destruct current as [c|].
      - destruct (str_eqb (i_meal_type r) c) eqn:E; cbn [negb].
        + exists []. split; [|reflexivity].
          apply str_eqb_eq in E. rewrite E. reflexivity.
        + exists (meal_heading (i_meal_type r)). split; reflexivity.
      - exists (meal_heading (i_meal_type r)). split; reflexivity. }
    destruct Hstep as (pre & -> & Hpre). rewrite IH.
    repeat rewrite <- app_assoc. f_equal.
    cbn [sections]. destruct (sections rows) as [|[m l] rest].
    + cbn [render_sections List.map List.concat]. rewrite <- Hpre.
      repeat rewrite app_nil_r. reflexivity.
    + destruct (str_eqb (i_meal_type r) m) eqn:E.
      * apply str_eqb_eq in E. subst m. rewrite render_sections_same.
        cbn [render_sections List.map List.concat]. rewrite <- Hpre.
        repeat rewrite <- app_assoc. reflexivity.
      * rewrite render_sections_other by (rewrite str_eqb_sym; exact E).
        cbn [render_sections List.map List.concat]. rewrite <- Hpre.
        rewrite app_nil_r. reflexivity.
Qed.

(** The reply of [review_meals] when the storage layer works. *)
Lemma review_meals_reply (e : env) (date_str : option str) (s : db) :
  fault e = None ->
  let d := or_default date_str (today e) in
  snd (review_meals e date_str s) =
  match select_meals d s with
  | [] => no_meals_logged d
  | rows => meals_header d ++ List.concat (List.map meal_section (sections rows))
  end.
Proof.
  intros F d. unfold review_meals, review_meals_try, connect. rewrite F. cbn [bind].
  fold d. destruct (select_meals d s) as [|r rows]; [reflexivity|].
  cbn [snd]. rewrite meal_loop, render_sections_none. reflexivity.
Qed.

(** ** The sections of a row list *)

Lemma sections_concat (rows : list intake) :
  List.concat (List.map snd (sections rows)) = rows.
Proof.
  induction rows as [|r rows IH]; [reflexivity|].
  cbn [sections]. destruct (sections rows) as [|[m l] rest].
  - simpl in *. rewrite <- IH. reflexivity.
  - destruct (str_eqb (i_meal_type r) m); simpl in *; rewrite <- IH; reflexivity.
Qed.

Lemma sections_uniform (rows : list intake) :
  Forall (fun sec => snd sec <> [] /\ Forall (fun r => i_meal_type r = fst sec) (snd sec))
         (sections rows).
Proof.
  induction rows as [|r rows IH]; [constructor|].
  cbn [sections]. destruct (sections rows) as [|[m l] rest].
  - repeat constructor. discriminate.
  - inversion IH as [|? ? [Hne Hl] Hrest]; subst. simpl in *.
    destruct (str_eqb (i_meal_type r) m) eqn:E.
    + apply str_eqb_eq in E. constructor; [|exact Hrest]. simpl.
      split; [discriminate|]. constructor; assumption.
    + constructor; [|exact IH]. simpl. split; [discriminate|]. repeat constructor.
Qed.






End Meals.

Section Intake.

Context {rt : Runtime}.

Arguments meal_heading : simpl never.
Arguments meal_lines : simpl never.
Arguments meals_header : simpl never.

Lemma insert_intake_numbers t d n pd c p cb f m s :
  all_numbers [c; p; cb; f] = true ->
  insert_intake t d n pd c p cb f m s =
  Return (with_daily_intake s
            (daily_intake s ++
             [mkIntake (daily_intake_seq s + 1) d n pd
                (normal c) (normal p) (normal cb) (normal f) m t])
            (daily_intake_seq s + 1)).
Proof.
  intros H. unfold all_numbers in H. simpl in H.
  repeat rewrite andb_true_iff in H. repeat rewrite negb_true_iff in H.
  destruct H as (? & ? & ? & ? & _). unfold insert_intake.
  repeat (rewrite not_null_number by assumption; cbn [bind]). reflexivity.
Qed.

Lemma insert_intake_nan t d n pd c p cb f m s :
  all_numbers [c; p; cb; f] = false ->
  exists msg, insert_intake t d n pd c p cb f m s = Raise (IntegrityError msg).
Proof.
  unfold all_numbers, insert_intake, not_null, store_real. simpl.
  destruct (PrimFloat.is_nan c); simpl; [eauto|].
  destruct (PrimFloat.is_nan p); simpl; [eauto|].
  destruct (PrimFloat.is_nan cb); simpl; [eauto|].
  destruct (PrimFloat.is_nan f); simpl; [eauto|]. discriminate.
Qed.

Lemma log_food_intake_fails e n c p cb f pd m d s :
  fails e (LogFoodIntake n c p cb f pd m d) s =
  match fault e with
  | Some _ => true
  | None => negb (all_numbers [c; p; cb; f])
  end.
Proof.
  unfold fails, log_food_intake_try, connect.
  destruct (fault e); [reflexivity|]. cbn [bind].
  destruct (all_numbers [c; p; cb; f]) eqn:E.
  - rewrite insert_intake_numbers by exact E. reflexivity.
  - destruct (insert_intake_nan (now e) (or_default d (today e)) n pd c p cb f
                (or_default m (lit "other")) s E) as [msg ->]. reflexivity.
Qed.

Lemma log_food_intake_done e n c p cb f pd m d s :
  fails e (LogFoodIntake n c p cb f pd m d) s = false ->
  fst (log_food_intake e n c p cb f pd m d s) =
  with_daily_intake s
    (daily_intake s ++
     [mkIntake (daily_intake_seq s + 1) (or_default d (today e)) n pd
        (normal c) (normal p) (normal cb) (normal f)
        (or_default m (lit "other")) (now e)])
    (daily_intake_seq s + 1).
Proof.
  rewrite log_food_intake_fails. unfold log_food_intake, log_food_intake_try, connect.
  destruct (fault e); [discriminate|]. rewrite negb_false_iff. intros E. cbn [bind].
  rewrite insert_intake_numbers by exact E. reflexivity.
Qed.

Lemma log_food_intake_failed e n c p cb f pd m d s :
  fails e (LogFoodIntake n c p cb f pd m d) s = true ->
  fst (log_food_intake e n c p cb f pd m d s) = s.
Proof.
  unfold fails, log_food_intake.
  destruct (log_food_intake_try e n c p cb f pd m d s); [discriminate|reflexivity].
Qed.

(** Only [log_food_intake] writes [daily_intake]. *)
Lemma invoke_daily_intake e c s :
  (forall n c' p cb f pd m d, c <> LogFoodIntake n c' p cb f pd m d) ->
  daily_intake (fst (invoke e c s)) = daily_intake s.
Proof.
  intros H. destruct c; simpl.
  - unfold set_daily_goals, set_daily_goals_try, insert_or_replace_goal, connect, not_null.
    destruct (fault e); simpl; [reflexivity|].
    repeat (match goal with |- context [store_real ?x] => destruct (store_real x) end;
            simpl; [|reflexivity]).
    reflexivity.
  - unfold add_food_to_database, add_food_to_database_try, insert_food, connect, not_null.
    destruct (fault e); simpl; [reflexivity|].
    repeat (match goal with |- context [store_real ?x] => destruct (store_real x) end;
            simpl; [|reflexivity]).
    destruct (List.existsb _ _); reflexivity.
  - unfold lookup_food. destruct (lookup_food_try e name s); reflexivity.
  - exfalso. eapply H. reflexivity.
  - unfold get_database_info. destruct (get_database_info_try e s); reflexivity.
  - unfold review_meals. destruct (review_meals_try e date_str s); reflexivity.
Qed.

Lemma invoke_logged e c s :
  daily_intake (fst (invoke e c s)) = daily_intake s ++ logged e c s.
Proof.
  destruct c;
    try (rewrite invoke_daily_intake by discriminate; simpl; rewrite app_nil_r; reflexivity).
  cbn [invoke logged].
  destruct (fails e _ s) eqn:F.
  - rewrite log_food_intake_failed by exact F. rewrite app_nil_r. reflexivity.
  - rewrite log_food_intake_done by exact F. reflexivity.
Qed.

Lemma run_extends (evs : list event) (w : world) :
  exists more,
    daily_intake (store (run w evs)) = daily_intake (store w) ++ more.
Proof.
  revert w; induction evs as [|ev evs IH]; intros w.
  - exists []. simpl. rewrite app_nil_r. reflexivity.
  - simpl. destruct (IH (step w ev)) as [more ->].
    unfold step at 1. cbn [store]. rewrite invoke_logged, <- app_assoc. eauto.
Qed.

(** ** Timestamps along the table *)

Lemma StronglySorted_snoc {A} (R : A -> A -> Prop) (l : list A) (y : A) :
  StronglySorted R l -> Forall (fun x => R x y) l -> StronglySorted R (l ++ [y]).
Proof.
  induction 1 as [|x l S IH Hx]; intros H; simpl.
  - repeat constructor.
  - inversion H; subst. constructor; [apply IH; assumption|].
    apply Forall_app. split; [exact Hx|]. repeat constructor. assumption.
Qed.

Lemma StronglySorted_filter {A} (R : A -> A -> Prop) (p : A -> bool) (l : list A) :
  StronglySorted R l -> StronglySorted R (List.filter p l).
Proof.
  induction 1 as [|x l S IH Hx]; simpl; [constructor|].
  destruct (p x); [|exact IH]. constructor; [exact IH|].
  rewrite Forall_forall in *. intros y Hy. apply filter_In in Hy. apply Hx, Hy.
Qed.





Lemma select_meals_perm (d : str) (s : db) :
  Permutation (select_meals d s) (entries_for d s).
Proof. apply order_by_perm. Qed.







Lemma concat_map_split {A} (f : A -> str) (x : A) (l : list A) :
  In x l -> exists a b, List.concat (List.map f l) = a ++ f x ++ b.
Proof.
  intros H. apply in_split in H. destruct H as (l1 & l2 & ->).
  rewrite map_app, concat_app. simpl. eauto.
Qed.

(** A stored entry of the date shows in the review under the heading
    of its meal type. *)
Lemma review_meals_shows (e : env) (d : str) (s : db) (r : intake) :
  fault e = None ->
  In r (entries_for d s) ->
  exists a b c,
    snd (review_meals e (Some d) s)
    = a ++ meal_heading (i_meal_type r) ++ b ++ meal_lines r ++ c.
Proof.
  intros F Hin. rewrite review_meals_reply by exact F. simpl or_default.
  apply (Permutation_in _ (Permutation_sym (select_meals_perm d s))) in Hin.
  destruct (select_meals d s) as [|r0 rows] eqn:E; [contradiction|].
  rewrite <- E in *. clear E r0 rows.
  rewrite <- (sections_concat (select_meals d s)) in Hin.
  apply in_concat in Hin. destruct Hin as (l & Hl & Hr).
  apply in_map_iff in Hl. destruct Hl as ([m l'] & El & Hsec). simpl in El. subst l'.
  pose proof (sections_uniform (select_meals d s)) as U.
  rewrite Forall_forall in U. destruct (U _ Hsec) as [_ Hm]. simpl in Hm.
  rewrite Forall_forall in Hm. rewrite (Hm _ Hr).
  destruct (concat_map_split meal_section _ _ Hsec) as (a & c & ->).
  rewrite meal_section_pair.
  destruct (concat_map_split meal_lines _ _ Hr) as (x & y & ->).
  exists (meals_header d ++ a), x, (y ++ c).
  repeat rewrite <- app_assoc. reflexivity.
Qed.

End Intake.

Section IntakeClaims.

Context {rt : Runtime}.

(** C5 (amended).  A Log Intake that did not fail adds one row that
    holds the portion description and the meal type as given and the
    four numbers as given (a zero without its sign).  Every later
    Review Meals of that date shows the portion description and the
    food name as given, the calories rounded to an integer, protein,
    carbs and fat rounded to one decimal, and the meal type in upper
    case, in the heading of the entry's section. *)
Theorem log_food_intake_round_trip :
  forall (e : env) (food_name : str) (calories protein carbs fat : float)
         (portion_description : str) (meal_type date_str : option str) (s : db),
    fails e (LogFoodIntake food_name calories protein carbs fat portion_description
               meal_type date_str) s = false ->
    let d := or_default date_str (today e) in
    let m := or_default meal_type (lit "other") in
    let s' := fst (log_food_intake e food_name calories protein carbs fat
                     portion_description meal_type date_str s) in
    daily_intake s' =
    daily_intake s ++
    [mkIntake (daily_intake_seq s + 1) d food_name portion_description
       (normal calories) (normal protein) (normal carbs) (normal fat) m (now e)]
    /\
    List.forallb (fun x => PrimFloat.eqb (normal x) x) [calories; protein; carbs; fat] = true
    /\
    (forall (t : N) (evs : list event) (e' : env),
        fault e' = None ->
        exists a b c,
          snd (review_meals e' (Some d) (store (run (mkWorld t s') evs)))
          = a ++
            (PLATE ++ lit " " ++ str_upper m ++ NL ++ times (lit "-") 15 ++ NL) ++
            b ++
            (BULLET ++ lit " " ++ portion_description ++ lit " " ++ food_name ++ NL ++
             lit "  " ++ format_fixed 0 (normal calories) ++ lit " cal | " ++
             format_fixed 1 (normal protein) ++ lit "g protein | " ++
             format_fixed 1 (normal carbs) ++ lit "g carbs | " ++
             format_fixed 1 (normal fat) ++ lit "g fat" ++ NL ++ NL) ++
            c).
Proof.
  intros e food_name calories protein carbs fat portion_description meal_type date_str s
         F d m s'.
  assert (Hs' : daily_intake s' =
                daily_intake s ++
                [mkIntake (daily_intake_seq s + 1) d food_name portion_description
                   (normal calories) (normal protein) (normal carbs) (normal fat) m (now e)]).
  { subst s'. rewrite log_food_intake_done by exact F. reflexivity. }
  split; [exact Hs'|]. split.
  - rewrite log_food_intake_fails in F. destruct (fault e); [discriminate|].
    apply normal_all_numbers, negb_false_iff, F.
  - intros t evs e' F'.
    set (row := mkIntake (daily_intake_seq s + 1) d food_name portion_description
                  (normal calories) (normal protein) (normal carbs) (normal fat) m (now e)).
    change (PLATE ++ lit " " ++ str_upper m ++ NL ++ times (lit "-") 15 ++ NL)
      with (meal_heading (i_meal_type row)).
    assert (Hin : In row (entries_for d (store (run (mkWorld t s') evs)))).
    { apply filter_In. split.
      - destruct (run_extends evs (mkWorld t s')) as [more ->]. cbn [store].
        rewrite Hs'. apply in_or_app. left. apply in_or_app. right. left. reflexivity.
      - apply str_eqb_refl. }
    destruct (review_meals_shows e' d _ row F' Hin) as (a & b & c & ->).
    exists a, b, c. reflexivity.
Qed.


Lemma run_meal_types (evs : list event) (w : world) :
  Forall (fun r => In r (daily_intake (store w)) \/ In (i_meal_type r) (meal_types_given evs))
         (daily_intake (store (run w evs))).
Proof.
  revert w; induction evs as [|ev evs IH]; intros w.
  - simpl. apply Forall_forall. auto.
  - simpl run. eapply Forall_impl; [|apply IH]. intros r [Hr|Hr].
    + unfold step in Hr. cbn [store] in Hr. rewrite invoke_logged in Hr.
      apply in_app_or in Hr. destruct Hr as [Hr|Hr]; [left; exact Hr|].
      right. unfold meal_types_given. cbn [List.flat_map]. apply in_or_app. left.
      destruct (ev_call ev); try contradiction. cbn [logged] in Hr.
      destruct (fails _ _ _); [contradiction|].
      destruct Hr as [<-|[]]. left. reflexivity.
    + right. unfold meal_types_given. cbn [List.flat_map]. apply in_or_app. right. exact Hr.
Qed.

(** C9 (amended).  A Log Intake that did not fail stores the meal type
    the caller gave, whatever string it is, and "other" when the caller
    gave none; so on a store that calls have filled from the empty one
    every entry's meal type is one that some Log Intake call gave, or
    "other" for a call that gave none. *)
Theorem log_food_intake_meal_type :
  (forall (e : env) (food_name : str) (calories protein carbs fat : float)
          (portion_description : str) (meal_type date_str : option str) (s : db),
      fails e (LogFoodIntake food_name calories protein carbs fat portion_description
                 meal_type date_str) s = false ->
      exists row,
        daily_intake (fst (log_food_intake e food_name calories protein carbs fat
                             portion_description meal_type date_str s))
        = daily_intake s ++ [row]
        /\ i_meal_type row = match meal_type with
                             | Some m => m
                             | None => lit "other"
                             end)
  /\
  (forall (w0 : world) (evs : list event),
      daily_intake (store w0) = [] ->
      Forall (fun r => In (i_meal_type r) (meal_types_given evs))
             (daily_intake (store (run w0 evs)))).
Proof.
  split.
  - intros e food_name calories protein carbs fat portion_description meal_type date_str s F.
    rewrite log_food_intake_done by exact F. eexists. split; [reflexivity|].
    destruct meal_type; reflexivity.
  - intros w0 evs H0. eapply Forall_impl; [|apply run_meal_types].
    intros r [Hr|Hr]; [|exact Hr]. rewrite H0 in Hr. contradiction.
Qed.

End IntakeClaims.

(* ================================================================== *)
(** * Replies *)

Section Replies.

Context {rt : Runtime}.

Ltac pick_marker :=
  first
    [ exists CHECK_MARK; split; [simpl; tauto | reflexivity]
    | exists CROSS_MARK; split; [simpl; tauto | reflexivity]
    | exists MEMO; split; [simpl; tauto | reflexivity]
    | exists RED_APPLE; split; [simpl; tauto | reflexivity]
    | exists FILE_FOLDER; split; [simpl; tauto | reflexivity]
    | exists PLATE; split; [simpl; tauto | reflexivity] ].

Ltac settle := split; [pick_marker | split; [reflexivity | try reflexivity; try discriminate]].

Ltac numbers :=
  repeat (match goal with
          | |- context [store_real ?x] => destruct (store_real x); cbn [bind]
          end; [|settle]).

(** C8 (amended).  Every call returns a text (no exception leaves a
    tool), and the text starts with one of six markers.  A call whose
    [try] block raised returns a text that starts with the cross mark,
    and leaves the store as it was; the cross mark also starts the
    reply of a Lookup Food by name that finds no row, which raised
    nothing; no other reply starts with it. *)
Theorem replies_start_with_marker :
  forall (e : env) (c : call) (s : db),
    (exists m, In m MARKERS /\ startswith m (snd (invoke e c s)) = true)
    /\ startswith CROSS_MARK (snd (invoke e c s)) = fails e c s || no_match c s
    /\ (fails e c s = true -> fst (invoke e c s) = s).
Proof.
  intros e c s. destruct c; cbn [invoke fails no_match].
  - unfold set_daily_goals, set_daily_goals_try, connect, insert_or_replace_goal, not_null.
    destruct (fault e); cbn [bind]; [settle|]. numbers. settle.
  - unfold add_food_to_database, add_food_to_database_try, connect, insert_food, not_null.
    destruct (fault e); cbn [bind]; [settle|]. numbers.
    destruct (List.existsb _ (foods s)); settle.
  - unfold lookup_food, lookup_food_try, connect.
    destruct (fault e); cbn [bind]; [settle|].
    destruct (truthy name); cbn [andb].
    + destruct (select_foods_like _ s) as [|r rows]; [settle|].
      rewrite food_listing_rows. settle.
    + rewrite food_listing_rows. destruct (select_foods_by_name s); settle.
  - unfold log_food_intake, log_food_intake_try, connect, insert_intake, not_null.
    destruct (fault e); cbn [bind]; [settle|]. numbers. settle.
  - unfold get_database_info, get_database_info_try, connect.
    destruct (db_file e); [|settle].
    destruct (fault e); cbn [bind]; settle.
  - unfold review_meals, review_meals_try, connect.
    destruct (fault e); cbn [bind]; [settle|].
    destruct (select_meals _ s) as [|r rows]; [settle|].
    cbn [snd]. rewrite meal_loop. settle.
Qed.

End Replies.

(* ================================================================== *)
(** * Initialization and the migration *)

Section Migration.

Import Schema.

Context {rt : Runtime}.





















End Migration.

(* ================================================================== *)
(** * The properties on a sample run *)

Section Samples.

Local Existing Instance sample_runtime.

Example format_fixed_samples :
  List.map (format_fixed 0) [89%float; 0.5%float; 1.5%float; 2.5%float; (-1.5)%float; (-0)%float]
    = List.map lit ["89"; "0"; "2"; "2"; "-2"; "-0"]%string
  /\ List.map (format_fixed 1) [1.1%float; 0.25%float; 0.35%float; 23%float; 999.95%float; (-0.04)%float; 0.05%float]
    = List.map lit ["1.1"; "0.2"; "0.3"; "23.0"; "1000.0"; "-0.0"; "0.1"]%string
  /\ format_fixed 1 infinity = lit "inf"
  /\ format_fixed 0 neg_infinity = lit "-inf"
  /\ format_fixed 0 nan = lit "nan".
Proof. vm_compute. repeat split; reflexivity. Qed.

(** The scenario of the specification: the review of the day has one
    SNACK section whose first line is the banana with 89 calories. *)
Example review_of_the_day :
  snd (review_meals (later 600) (Some sample_date) evening)
  = PLATE ++ lit " Meals for 2024-05-01" ++ NL ++ times (lit "=") 30 ++ NL ++ NL ++
    PLATE ++ lit " BREAKFAST" ++ NL ++ times (lit "-") 15 ++ NL ++
    BULLET ++ lit " 1 cup oatmeal" ++ NL ++
    lit "  150 cal | 5.0g protein | 27.0g carbs | 3.0g fat" ++ NL ++ NL ++
    PLATE ++ lit " OTHER" ++ NL ++ times (lit "-") 15 ++ NL ++
    BULLET ++ lit " 1 cup tea" ++ NL ++
    lit "  2 cal | 0.0g protein | 0.5g carbs | 0.0g fat" ++ NL ++ NL ++
    PLATE ++ lit " SNACK" ++ NL ++ times (lit "-") 15 ++ NL ++
    BULLET ++ lit " 1 medium banana" ++ NL ++
    lit "  89 cal | 1.1g protein | 23.0g carbs | 0.3g fat" ++ NL ++ NL ++
    BULLET ++ lit " 1 medium apple" ++ NL ++
    lit "  95 cal | 0.5g protein | 25.0g carbs | 0.3g fat" ++ NL ++ NL.
Proof. vm_compute. reflexivity. Qed.

(** ** C1 on the sample *)

Lemma set_daily_goals_one_row_per_date_witness :
  (List.length (goals_for sample_date evening) <= 1)%nat
  /\ goals_for sample_date
       (fst (set_daily_goals (later 60) 2200 160 260 75 (Some sample_date)
               (fst (set_daily_goals sample_env 2000 150 250 70 None empty_db))))
     = [mkGoal 2 sample_date 2200 160 260 75 (now (later 60))]
  /\ fails (later 60) (SetDailyGoals 2200 160 260 75 (Some sample_date)) empty_db = false.
Proof.
  split; [|split].
  - apply (proj1 set_daily_goals_one_row_per_date fresh sample_day sample_date).
    intro d. apply Nat.le_0_l.
  - exact (proj1 (proj1 (proj2 set_daily_goals_one_row_per_date)
                    sample_env (later 60) 2000 150 250 70 2200 160 260 75
                    None (Some sample_date) sample_date empty_db
                    eq_refl eq_refl eq_refl))%float.
  - apply (proj2 (proj2 set_daily_goals_one_row_per_date)); reflexivity.
Defined.

(** ** C2 on the sample: no food is called oats, and the reply says
    that oats already exists *)

Lemma add_food_to_database_nan_witness :
  foods_named (lit "oats") evening = []
  /\ add_food_to_database (later 700) (lit "oats") nan 13 68 7 evening
     = (evening, CROSS_MARK ++ lit " Food 'oats' already exists in database").
Proof.
  split; [reflexivity|].
  exact (add_food_to_database_nan_is_reported_duplicate (later 700) (lit "oats") 13 68 7
           evening eq_refl eq_refl)%float.
Defined.

(** The LIKE operator on some patterns and texts; 233 and 201 are the
    small and the capital e with acute accent, 0 is NUL. *)
Example like_samples :
  List.map (fun ps => like (fst ps) (snd ps))
    [ (lit "%b_n%", lit "banana"); (lit "%B%", lit "banana");
      ([PERCENT; 201%N; PERCENT], [233%N]); ([PERCENT; 233%N; PERCENT], [233%N]);
      (lit "%a_b%", [97%N; 233%N; 98%N]); (lit "%a%b%", lit "a%b");
      (lit "%a%b%", lit "axxb"); (lit "%_%", []); (lit "%%%", lit "x"); (lit "%%", []);
      (lit "%a" ++ [NUL] ++ lit "zz%", lit "banana");
      (lit "%b" ++ [NUL] ++ lit "%", lit "banana");
      (lit "%_%", [NUL] ++ lit "abc"); (lit "%%%", [NUL] ++ lit "abc");
      (lit "%cd%", lit "ab" ++ [NUL] ++ lit "cd"); (lit "%ab%", lit "ab" ++ [NUL] ++ lit "cd");
      (lit "%ab" ++ [NUL] ++ lit "cd%", lit "ab" ++ [NUL] ++ lit "cd");
      (lit "%a" ++ [NUL] ++ lit "b%", lit "xa"); (lit "%a" ++ [NUL] ++ lit "b%", lit "ax");
      ([NUL], []); ([NUL], lit "abc") ]
  = [true; true; false; true; true; true; true; false; true; true;
     true; false; false; true; false; true; true; true; false; true; false].
Proof. vm_compute. reflexivity. Qed.

(** ** C3 on the sample *)



(** ** C4 on the sample *)

(** The store has no food, a name is given, and the reply is not "no
    foods yet". *)
Lemma lookup_food_empty_store_counterexample :
  foods empty_db = []
  /\ snd (lookup_food sample_env (Some (lit "apple")) empty_db)
     = no_foods_matching (lit "apple")
  /\ snd (lookup_food sample_env (Some (lit "apple")) empty_db) <> no_foods_yet.
Proof. vm_compute. repeat split; try reflexivity. discriminate. Qed.

Lemma lookup_food_empty_results_witness :
  snd (lookup_food sample_env (Some (lit "apple")) empty_db)
  = no_foods_matching (lit "apple")
  /\ snd (lookup_food sample_env None empty_db) = no_foods_yet
  /\ snd (lookup_food (later 700) (Some (lit "nut")) evening)
     = no_foods_matching (lit "nut").
Proof.
  split; [|split].
  - apply (proj1 (lookup_food_empty_results sample_env empty_db eq_refl));
      [discriminate | reflexivity].
  - apply (proj1 (proj2 (lookup_food_empty_results sample_env empty_db eq_refl))).
    split; reflexivity.
  - apply (proj1 (lookup_food_empty_results (later 700) evening eq_refl));
      [discriminate | reflexivity].
Defined.

(** ** C5 on the sample *)

(** The meal type given is "snack"; the review has "SNACK" and nowhere
    "snack". *)
Lemma review_meals_upper_case_counterexample :
  List.map i_meal_type (daily_intake after_banana) = [lit "snack"]
  /\ occurs (lit "snack") (snd (review_meals (later 60) (Some sample_date) after_banana)) = false
  /\ occurs (lit "SNACK") (snd (review_meals (later 60) (Some sample_date) after_banana)) = true.
Proof. vm_compute. repeat split; reflexivity. Qed.

Lemma log_food_intake_round_trip_witness :
  daily_intake after_banana
  = [mkIntake 1 sample_date (lit "banana") (lit "1 medium") 89 1.1 23 0.3 (lit "snack")
       (now sample_env)]
  /\ exists a b c,
       snd (review_meals (later 60) (Some sample_date) after_banana)
       = a ++ (PLATE ++ lit " SNACK" ++ NL ++ times (lit "-") 15 ++ NL) ++ b ++
         (BULLET ++ lit " 1 medium banana" ++ NL ++
          lit "  89 cal | 1.1g protein | 23.0g carbs | 0.3g fat" ++ NL ++ NL) ++ c.
Proof.
  pose proof (log_food_intake_round_trip sample_env (lit "banana") 89 1.1 23 0.3
                (lit "1 medium") (Some (lit "snack")) (Some sample_date) empty_db eq_refl)%float
    as (Hrow & _ & Hreview).
  split; [exact Hrow|].
  exact (Hreview 0%N [] (later 60) eq_refl).
Defined.

(** ** C6 on the sample *)

(** The toast was logged before the tea, in the same section; the
    clock was set back in between, and the review has the tea first. *)
Lemma review_meals_insertion_order_counterexample :
  List.map (fun r => (i_food_name r, i_meal_type r, i_created_at r))
           (entries_for sample_date set_back_store)
  = [(lit "toast", lit "snack", 1714550500%N); (lit "tea", lit "snack", 1714550440%N)]
  /\ snd (review_meals (later 600) (Some sample_date) set_back_store)
     = PLATE ++ lit " Meals for 2024-05-01" ++ NL ++ times (lit "=") 30 ++ NL ++ NL ++
       PLATE ++ lit " SNACK" ++ NL ++ times (lit "-") 15 ++ NL ++
       BULLET ++ lit " 1 cup tea" ++ NL ++
       lit "  2 cal | 0.0g protein | 0.5g carbs | 0.0g fat" ++ NL ++ NL ++
       BULLET ++ lit " 1 slice toast" ++ NL ++
       lit "  80 cal | 3.0g protein | 15.0g carbs | 1.0g fat" ++ NL ++ NL.
Proof. vm_compute. split; reflexivity. Qed.


(** ** C7 on the sample *)

(** A row whose serving size is NULL gets NULL, not a text that ends
    in "g".  On a table that has a column named g the double-quoted
    "g" of the UPDATE is that column: the rows get their serving size
    joined with what they hold there. *)
Lemma init_database_backfill_counterexample :
  Schema.init_database sample_env (Schema.mkDatabase None None (Some old_null_intake))
  = (Schema.mkDatabase
       (Some (Schema.mkTable Schema.foods_columns []))
       (Some (Schema.mkTable Schema.daily_goals_columns []))
       (Some (Schema.mkTable
                (List.map lit ["id"; "food_name"; "serving_size_g"; "portion_description"]%string)
                [ [Schema.Integer 1; Schema.Text (lit "rice"); Schema.Null; Schema.Null];
                  [Schema.Integer 2; Schema.Text (lit "egg"); Schema.Integer 50;
                   Schema.Text (lit "50g")] ])),
     None)
  /\ Schema.t_daily_intake
       (fst (Schema.init_database sample_env
               (Schema.mkDatabase None None (Some old_intake_g))))
     = Some (Schema.mkTable
               (List.map lit ["id"; "serving_size_g"; "g"; "portion_description"]%string)
               [ [Schema.Integer 1; Schema.Real 200; Schema.Text (lit "oz");
                  Schema.Text (lit "200.0oz")];
                 [Schema.Integer 2; Schema.Integer 50; Schema.Integer 7;
                  Schema.Text (lit "507")] ]).
Proof. vm_compute. split; reflexivity. Qed.

(** On a table with a column named "unknown portion" the UPDATE
    compares the new column with that column and skips the rows that
    hold another value there; on a table whose portion description
    column is spelled with capitals the test of the guard does not
    see the column, and the ALTER raises. *)
Example init_database_name_clashes :
  Schema.t_daily_intake
    (fst (Schema.init_database sample_env
            (Schema.mkDatabase None None (Some old_intake_unknown))))
  = Some (Schema.mkTable
            (List.map lit ["id"; "serving_size_g"; "Unknown Portion";
                           "portion_description"]%string)
            [ [Schema.Integer 1; Schema.Real 200; Schema.Text (lit "a");
               Schema.Text (lit "unknown portion")];
              [Schema.Integer 2; Schema.Real 50; Schema.Text (lit "unknown portion");
               Schema.Text (lit "50.0g")];
              [Schema.Integer 3; Schema.Real 60; Schema.Null;
               Schema.Text (lit "unknown portion")] ])
  /\ Schema.init_database sample_env (Schema.mkDatabase None None (Some old_intake_capitals))
     = (Schema.mkDatabase
          (Some (Schema.mkTable Schema.foods_columns []))
          (Some (Schema.mkTable Schema.daily_goals_columns []))
          (Some old_intake_capitals),
        Some (OtherError (lit "duplicate column name: portion_description")))
  /\ Schema.init_database sample_env
       (Schema.mkDatabase None None
          (Some (Schema.mkTable (List.map lit ["id"; "SERVING_SIZE_G"]%string)
                   [[Schema.Integer 1; Schema.Real 200]])))
     = (Schema.mkDatabase
          (Some (Schema.mkTable Schema.foods_columns []))
          (Some (Schema.mkTable Schema.daily_goals_columns []))
          (Some (Schema.mkTable (List.map lit ["id"; "SERVING_SIZE_G"]%string)
                   [[Schema.Integer 1; Schema.Real 200]])),
        None)
  /\ Schema.init_database locked old_store = (old_store, Some (OtherError (lit "database is locked"))).
Proof. vm_compute. repeat split; reflexivity. Qed.


(** ** C8 on the sample *)

(** Nothing was raised, and the reply starts with the cross mark. *)
Lemma lookup_food_no_match_counterexample :
  fails sample_env (LookupFood (Some (lit "kiwi"))) empty_db = false
  /\ startswith CROSS_MARK (snd (invoke sample_env (LookupFood (Some (lit "kiwi"))) empty_db))
     = true.
Proof. vm_compute. split; reflexivity. Qed.

Lemma replies_start_with_marker_witness :
  startswith CROSS_MARK
    (snd (invoke (mkEnv sample_date 0 None (Some (lit "unable to open database file")))
            banana empty_db)) = true
  /\ fst (invoke (mkEnv sample_date 0 None (Some (lit "unable to open database file")))
            banana empty_db) = empty_db
  /\ startswith CROSS_MARK (snd (invoke sample_env banana empty_db)) = false.
Proof.
  pose proof (replies_start_with_marker
                (mkEnv sample_date 0 None (Some (lit "unable to open database file")))
                banana empty_db) as (_ & Hmark & Hstore).
  pose proof (replies_start_with_marker sample_env banana empty_db) as (_ & Hmark' & _).
  split; [exact Hmark|]. split; [exact (Hstore eq_refl)|exact Hmark'].
Defined.

(** ** C9 on the sample *)

(** The call did not fail and the stored meal type is none of the five. *)
Lemma log_food_intake_brunch_counterexample :
  fails sample_env brunch empty_db = false
  /\ List.map i_meal_type (daily_intake (fst (invoke sample_env brunch empty_db)))
     = [lit "brunch"]
  /\ ~ In (lit "brunch") MEAL_TYPES.
Proof.
  split; [reflexivity|]. split; [reflexivity|].
  vm_compute. intuition discriminate.
Qed.

Lemma log_food_intake_meal_type_witness :
  (exists row,
      daily_intake (fst (log_food_intake sample_env (lit "tea") 2 0 0.5 0 (lit "1 cup")
                           None None empty_db))
      = [row] /\ i_meal_type row = lit "other")
  /\ Forall (fun r => In (i_meal_type r) (meal_types_given sample_day))
            (daily_intake evening).
Proof.
  split.
  - exact (proj1 log_food_intake_meal_type sample_env (lit "tea") 2 0 0.5 0 (lit "1 cup")
             None None empty_db eq_refl)%float.
  - exact (proj2 log_food_intake_meal_type fresh sample_day eq_refl).
Defined.

End Samples.

(* ================================================================== *)
(** * Further properties of the tools *)

Section Registering.

Context {rt : Runtime}.

Lemma insert_food_nan t name c p cb f s :
  all_numbers [c; p; cb; f] = false ->
  exists msg, insert_food t name c p cb f s = Raise (IntegrityError msg).
Proof.
  unfold all_numbers, insert_food, not_null, store_real. simpl.
  destruct (PrimFloat.is_nan c); simpl; [eauto|].
  destruct (PrimFloat.is_nan p); simpl; [eauto|].
  destruct (PrimFloat.is_nan cb); simpl; [eauto|].
  destruct (PrimFloat.is_nan f); simpl; [eauto|]. discriminate.
Qed.

Lemma name_taken_In (name : str) (s : db) :
  name_taken name s = true <-> In name (food_names s).
Proof.
  unfold name_taken, food_names. rewrite existsb_exists, in_map_iff. split.
  - intros (r & Hr & E). apply str_eqb_eq in E. eauto.
  - intros (r & E & Hr). exists r. split; [exact Hr|]. apply str_eqb_eq, E.
Qed.

Lemma add_food_to_database_fails e n c p cb f s :
  fails e (AddFoodToDatabase n c p cb f) s =
  match fault e with
  | Some _ => true
  | None => negb (all_numbers [c; p; cb; f]) || name_taken n s
  end.
Proof.
  unfold fails, add_food_to_database_try, connect.
  destruct (fault e); [reflexivity|]. cbn [bind].
  destruct (all_numbers [c; p; cb; f]) eqn:E.
  - rewrite insert_food_numbers by exact E. fold (name_taken n s).
    destruct (name_taken n s); reflexivity.
  - destruct (insert_food_nan (now e) n c p cb f s E) as [msg ->]. reflexivity.
Qed.

Lemma add_food_to_database_done e n c p cb f s :
  fails e (AddFoodToDatabase n c p cb f) s = false ->
  fst (add_food_to_database e n c p cb f s) =
  with_foods s
    (foods s ++
     [mkFood (foods_seq s + 1) n (normal c) (normal p) (normal cb) (normal f) (now e)])
    (foods_seq s + 1).
Proof.
  rewrite add_food_to_database_fails.
  unfold add_food_to_database, add_food_to_database_try, connect.
  destruct (fault e); [discriminate|]. rewrite orb_false_iff, negb_false_iff.
  intros [E T]. cbn [bind]. rewrite insert_food_numbers by exact E.
  fold (name_taken n s). rewrite T. reflexivity.
Qed.

Lemma add_food_to_database_failed e n c p cb f s :
  fails e (AddFoodToDatabase n c p cb f) s = true ->
  fst (add_food_to_database e n c p cb f s) = s.
Proof.
  unfold fails, add_food_to_database.
  destruct (add_food_to_database_try e n c p cb f s) as [|[]]; [discriminate| |]; reflexivity.
Qed.

(** The tools that only read. *)
Lemma lookup_food_reads e name s : fst (lookup_food e name s) = s.
Proof. unfold lookup_food. destruct (lookup_food_try e name s); reflexivity. Qed.

Lemma review_meals_reads e d s : fst (review_meals e d s) = s.
Proof. unfold review_meals. destruct (review_meals_try e d s); reflexivity. Qed.

Lemma get_database_info_reads e s : fst (get_database_info e s) = s.
Proof. unfold get_database_info. destruct (get_database_info_try e s); reflexivity. Qed.

(** Only [add_food_to_database] writes [foods]. *)
Lemma invoke_registered e c s :
  foods (fst (invoke e c s)) = foods s ++ registered e c s.
Proof.
  destruct c; cbn [invoke registered]; try rewrite app_nil_r.
  - destruct (fails e (SetDailyGoals target_calories target_protein target_carbs
                         target_fat date_str) s) eqn:F.
    + rewrite set_daily_goals_failed by exact F. reflexivity.
    + rewrite set_daily_goals_done by exact F. reflexivity.
  - destruct (fails e _ s) eqn:F.
    + rewrite add_food_to_database_failed by exact F. rewrite app_nil_r. reflexivity.
    + rewrite add_food_to_database_done by exact F. reflexivity.
  - rewrite lookup_food_reads. reflexivity.
  - destruct (fails e (LogFoodIntake food_name calories protein carbs fat
                         portion_description meal_type date_str) s) eqn:F.
    + rewrite log_food_intake_failed by exact F. reflexivity.
    + rewrite log_food_intake_done by exact F. reflexivity.
  - rewrite get_database_info_reads. reflexivity.
  - rewrite review_meals_reads. reflexivity.
Qed.

Lemma run_foods_extend (evs : list event) (w : world) :
  exists more, foods (store (run w evs)) = foods (store w) ++ more.
Proof.
  revert w; induction evs as [|ev evs IH]; intros w.
  - exists []. simpl. rewrite app_nil_r. reflexivity.
  - simpl. destruct (IH (step w ev)) as [more ->].
    unfold step at 1. cbn [store]. rewrite invoke_registered, <- app_assoc. eauto.
Qed.

Lemma registered_name_is_new e c s r :
  In r (registered e c s) -> ~ In (f_name r) (food_names s).
Proof.
  destruct c; cbn [registered]; try contradiction.
  destruct (fails e _ s) eqn:F; [contradiction|]. intros [<-|[]]. cbn [f_name].
  rewrite add_food_to_database_fails in F. destruct (fault e); [discriminate|].
  apply orb_false_iff in F. destruct F as [_ T]. rewrite <- name_taken_In, T. discriminate.
Qed.

Lemma invoke_names_unique e c s :
  NoDup (food_names s) -> NoDup (food_names (fst (invoke e c s))).
Proof.
  intros U. unfold food_names. rewrite invoke_registered, map_app.
  pose proof (registered_name_is_new e c s) as New.
  destruct (registered e c s) as [|r [|r' l]] eqn:E.
  - simpl. rewrite app_nil_r. exact U.
  - simpl. apply NoDup_app_remove_l with (l := []). simpl.
    apply Permutation_NoDup with (l := f_name r :: List.map f_name (foods s)).
    + apply Permutation_cons_append.
    + constructor; [apply New; left; reflexivity | exact U].
  - destruct c; cbn [registered] in E; try discriminate.
    destruct (fails e _ s); discriminate.
Qed.

Lemma run_names_unique (evs : list event) (w : world) :
  NoDup (food_names (store w)) -> NoDup (food_names (store (run w evs))).
Proof.
  revert w; induction evs as [|ev evs IH]; intros w U; simpl; [exact U|].
  apply IH. unfold step. cbn [store]. apply invoke_names_unique, U.
Qed.

End Registering.

Section RegisteringProperties.

Context {rt : Runtime}.

(** X1.  Register Food on values that are not NaN, the storage layer
    working: for a name that some food has, compared code point by code
    point, the reply is the duplicate text and the store is as it was;
    for any other name the reply is the confirmation and the store has
    one more food, with a new id, the values given and the time of the
    call, after the foods it had.  The duplicate text differs from
    every generic error text. *)
Theorem add_food_to_database_new_or_duplicate :
  forall (e : env) (name : str) (calories protein carbs fat : float) (s : db),
    fault e = None ->
    all_numbers [calories; protein; carbs; fat] = true ->
    (In name (food_names s) ->
     add_food_to_database e name calories protein carbs fat s = (s, already_exists name))
    /\
    (~ In name (food_names s) ->
     add_food_to_database e name calories protein carbs fat s =
     (with_foods s
        (foods s ++
         [mkFood (foods_seq s + 1) name (normal calories) (normal protein)
            (normal carbs) (normal fat) (now e)])
        (foods_seq s + 1),
      CHECK_MARK ++ lit " Added " ++ name ++ lit " to food database" ++ NL ++
      lit "Reference values per 100g: " ++ float_str calories ++ lit " cal, " ++
      float_str protein ++ lit "g protein, " ++ float_str carbs ++
      lit "g carbs, " ++ float_str fat ++ lit "g fat"))
    /\
    (forall msg : str,
        already_exists name <> CROSS_MARK ++ lit " Error adding food: " ++ msg).
Proof.
  intros e name calories protein carbs fat s F H.
  unfold add_food_to_database, add_food_to_database_try, connect.
  rewrite F. cbn [bind]. rewrite insert_food_numbers by exact H.
  fold (name_taken name s). split; [|split].
  - intros T. apply name_taken_In in T. rewrite T. reflexivity.
  - intros T. rewrite <- name_taken_In in T.
    destruct (name_taken name s); [congruence|reflexivity].
  - intros msg. discriminate.
Qed.


(** X3.  No call updates or deletes a Food Reference: after any run the
    foods of before are still there, unchanged and in their order, with
    new ones after them; and when no two foods had the same name
    before, no two have afterwards. *)
Theorem foods_are_kept_and_names_unique :
  forall (w : world) (evs : list event),
    (exists more, foods (store (run w evs)) = foods (store w) ++ more)
    /\ (NoDup (food_names (store w)) -> NoDup (food_names (store (run w evs)))).
Proof.
  intros w evs. split; [apply run_foods_extend | apply run_names_unique].
Qed.

End RegisteringProperties.

Section Ids.

Context {rt : Runtime}.

Lemma increasing_snoc {A} (id : A -> Z) (seq : Z) (l : list A) (x : A) :
  increasing id seq l -> id x = (seq + 1)%Z -> increasing id (seq + 1) (l ++ [x]).
Proof.
  intros [S B] Hx. split.
  - apply StronglySorted_snoc; [exact S|].
    eapply Forall_impl; [|exact B]. simpl. intros a Ha. lia.
  - apply Forall_app. split.
    + eapply Forall_impl; [|exact B]. simpl. intros a Ha. lia.
    + repeat constructor. lia.
Qed.

Lemma increasing_filter {A} (id : A -> Z) (seq : Z) (p : A -> bool) (l : list A) :
  increasing id seq l -> increasing id seq (List.filter p l).
Proof.
  intros [S B]. split; [apply StronglySorted_filter, S|].
  rewrite Forall_forall in *. intros a Ha. apply filter_In in Ha. apply B, Ha.
Qed.

Lemma increasing_NoDup {A} (id : A -> Z) (seq : Z) (l : list A) :
  increasing id seq l -> NoDup (List.map id l).
Proof.
  intros [S _]. induction S as [|x l S IH Hx]; simpl; constructor; [|exact IH].
  rewrite in_map_iff. intros (y & E & Hy).
  rewrite Forall_forall in Hx. specialize (Hx y Hy). lia.
Qed.

Lemma invoke_ids_increase e c s :
  ids_increase s -> ids_increase (fst (invoke e c s)).
Proof.
  intros (Hf & Hg & Hi). destruct c; cbn [invoke].
  - destruct (fails e (SetDailyGoals target_calories target_protein target_carbs
                         target_fat date_str) s) eqn:F.
    + rewrite set_daily_goals_failed by exact F. exact (conj Hf (conj Hg Hi)).
    + rewrite set_daily_goals_done by exact F.
      split; [exact Hf|]. split; [|exact Hi]. cbn [daily_goals daily_goals_seq with_daily_goals].
      apply increasing_snoc; [apply increasing_filter, Hg | reflexivity].
  - destruct (fails e (AddFoodToDatabase name calories protein carbs fat) s) eqn:F.
    + rewrite add_food_to_database_failed by exact F. exact (conj Hf (conj Hg Hi)).
    + rewrite add_food_to_database_done by exact F.
      split; [|split; [exact Hg | exact Hi]]. cbn [foods foods_seq with_foods].
      apply increasing_snoc; [exact Hf | reflexivity].
  - rewrite lookup_food_reads. exact (conj Hf (conj Hg Hi)).
  - destruct (fails e (LogFoodIntake food_name calories protein carbs fat
                         portion_description meal_type date_str) s) eqn:F.
    + rewrite log_food_intake_failed by exact F. exact (conj Hf (conj Hg Hi)).
    + rewrite log_food_intake_done by exact F.
      split; [exact Hf|]. split; [exact Hg|].
      cbn [daily_intake daily_intake_seq with_daily_intake].
      apply increasing_snoc; [exact Hi | reflexivity].
  - rewrite get_database_info_reads. exact (conj Hf (conj Hg Hi)).
  - rewrite review_meals_reads. exact (conj Hf (conj Hg Hi)).
Qed.

Lemma run_ids_increase (evs : list event) (w : world) :
  ids_increase (store w) -> ids_increase (store (run w evs)).
Proof.
  revert w; induction evs as [|ev evs IH]; intros w H; simpl; [exact H|].
  apply IH. unfold step. cbn [store]. apply invoke_ids_increase, H.
Qed.

(** X4.  Row ids are given out in increasing order and never again: on
    a store whose ids increase along each table and do not exceed the
    table's counter, as on the empty store, the same holds after any
    run, so no two rows of a table share an id; a replaced Daily Goal
    comes back with a new id, above every id the table had. *)
Theorem row_ids_increase :
  forall (w : world) (evs : list event),
    ids_increase (store w) ->
    ids_increase (store (run w evs))
    /\ NoDup (List.map f_id (foods (store (run w evs))))
    /\ NoDup (List.map g_id (daily_goals (store (run w evs))))
    /\ NoDup (List.map i_id (daily_intake (store (run w evs)))).
Proof.
  intros w evs H. pose proof (run_ids_increase evs w H) as (Hf & Hg & Hi).
  split; [exact (conj Hf (conj Hg Hi))|].
  split; [|split]; eapply increasing_NoDup; eassumption.
Qed.

(** X5.  No call updates or deletes an Intake Entry: after any run the
    entries of before are still there, unchanged and in their order,
    with new ones after them, one for each Log Intake that did not
    fail. *)
Theorem intake_entries_are_kept :
  forall (w : world) (evs : list event),
    (exists more,
        daily_intake (store (run w evs)) = daily_intake (store w) ++ more)
    /\ (forall (e : env) (c : call) (s : db),
           daily_intake (fst (invoke e c s)) = daily_intake s ++ logged e c s
           /\ (List.length (logged e c s) <= 1)%nat).
Proof.
  intros w evs. split; [apply run_extends|].
  intros e c s. split; [apply invoke_logged|].
  destruct c; cbn [logged]; try apply Nat.le_0_l.
  destruct (fails e _ s); simpl; lia.
Qed.

(** X6.  Set Daily Goal touches the row of its date only: the rows of
    every other date, the foods and the intake entries are as they
    were before the call. *)
Theorem set_daily_goals_keeps_other_dates :
  forall (e : env) (a b c f : float) (date_str : option str) (s : db),
    let s' := fst (set_daily_goals e a b c f date_str s) in
    (forall d : str, d <> or_default date_str (today e) -> goals_for d s' = goals_for d s)
    /\ foods s' = foods s
    /\ daily_intake s' = daily_intake s.
Proof.
  intros e a b c f date_str s s'. subst s'.
  destruct (fails e (SetDailyGoals a b c f date_str) s) eqn:F.
  - rewrite set_daily_goals_failed by exact F. repeat split; reflexivity.
  - rewrite set_daily_goals_done by exact F. split; [|split; reflexivity].
    intros d Hd. rewrite goals_for_replaced by reflexivity.
    destruct (str_eqb (or_default date_str (today e)) d) eqn:E; [|reflexivity].
    apply str_eqb_eq in E. congruence.
Qed.

End Ids.

Section Errors.

Context {rt : Runtime}.

(** X7.  Set Daily Goal with a NaN among its targets, the storage layer
    working: the reply is the generic error text naming a NOT NULL
    column of [daily_goals], and the store is as it was, so a row the
    date had is not replaced. *)
Theorem set_daily_goals_rejects_nan :
  forall (e : env) (a b c f : float) (date_str : option str) (s : db),
    fault e = None ->
    all_numbers [a; b; c; f] = false ->
    exists column,
      In column ["daily_goals.target_calories"; "daily_goals.target_protein";
                 "daily_goals.target_carbs"; "daily_goals.target_fat"]%string
      /\ set_daily_goals e a b c f date_str s
         = (s, CROSS_MARK ++ lit " Error setting goals: " ++
               lit "NOT NULL constraint failed: " ++ lit column).
Proof.
  intros e a b c f date_str s F.
  unfold all_numbers, set_daily_goals, set_daily_goals_try, connect,
    insert_or_replace_goal, not_null, store_real.
  rewrite F. cbn [bind List.forallb].
  destruct (PrimFloat.is_nan a); cbn [bind negb andb];
    [intros _; eexists; split; [left; reflexivity | reflexivity]|].
  destruct (PrimFloat.is_nan b); cbn [bind negb andb];
    [intros _; eexists; split; [right; left; reflexivity | reflexivity]|].
  destruct (PrimFloat.is_nan c); cbn [bind negb andb];
    [intros _; eexists; split; [right; right; left; reflexivity | reflexivity]|].
  destruct (PrimFloat.is_nan f); cbn [bind negb andb];
    [intros _; eexists; split; [right; right; right; left; reflexivity | reflexivity]|].
  discriminate.
Qed.

(** X8.  Log Intake with a NaN among its four numbers, the storage
    layer working: the reply is the generic error text naming a NOT
    NULL column of [daily_intake], and nothing is logged. *)
Theorem log_food_intake_rejects_nan :
  forall (e : env) (food_name : str) (calories protein carbs fat : float)
         (portion_description : str) (meal_type date_str : option str) (s : db),
    fault e = None ->
    all_numbers [calories; protein; carbs; fat] = false ->
    exists column,
      In column ["daily_intake.calories"; "daily_intake.protein";
                 "daily_intake.carbs"; "daily_intake.fat"]%string
      /\ log_food_intake e food_name calories protein carbs fat portion_description
           meal_type date_str s
         = (s, CROSS_MARK ++ lit " Error logging food: " ++
               lit "NOT NULL constraint failed: " ++ lit column).
Proof.
  intros e food_name calories protein carbs fat portion_description meal_type date_str s F.
  unfold all_numbers, log_food_intake, log_food_intake_try, connect,
    insert_intake, not_null, store_real.
  rewrite F. cbn [bind List.forallb].
  destruct (PrimFloat.is_nan calories); cbn [bind negb andb];
    [intros _; eexists; split; [left; reflexivity | reflexivity]|].
  destruct (PrimFloat.is_nan protein); cbn [bind negb andb];
    [intros _; eexists; split; [right; left; reflexivity | reflexivity]|].
  destruct (PrimFloat.is_nan carbs); cbn [bind negb andb];
    [intros _; eexists; split; [right; right; left; reflexivity | reflexivity]|].
  destruct (PrimFloat.is_nan fat); cbn [bind negb andb];
    [intros _; eexists; split; [right; right; right; left; reflexivity | reflexivity]|].
  discriminate.
Qed.

(** X9.  A storage fault in a call: the reply is the cross mark, the
    tool's own error phrase and the text of the exception as it is, and
    the store is as it was.  Get Store Info opens the store only when
    the file exists: without the file its reply is the report, fault or
    not. *)
Theorem storage_fault_is_reported :
  forall (e : env) (msg : str) (s : db),
    fault e = Some msg ->
    (forall a b c f d,
        set_daily_goals e a b c f d s
        = (s, CROSS_MARK ++ lit " Error setting goals: " ++ msg))
    /\ (forall n a b c f,
           add_food_to_database e n a b c f s
           = (s, CROSS_MARK ++ lit " Error adding food: " ++ msg))
    /\ (forall n,
           lookup_food e n s = (s, CROSS_MARK ++ lit " Error looking up foods: " ++ msg))
    /\ (forall n a b c f pd m d,
           log_food_intake e n a b c f pd m d s
           = (s, CROSS_MARK ++ lit " Error logging food: " ++ msg))
    /\ (forall d,
           review_meals e d s = (s, CROSS_MARK ++ lit " Error reviewing meals: " ++ msg))
    /\ (db_file e <> None ->
        get_database_info e s
        = (s, CROSS_MARK ++ lit " Error getting database info: " ++ msg))
    /\ (db_file e = None ->
        get_database_info e s = (s, info_head (CROSS_MARK ++ lit " No"))).
Proof.
  intros e msg s F. repeat split; intros.
  - unfold set_daily_goals, set_daily_goals_try, connect. rewrite F. reflexivity.
  - unfold add_food_to_database, add_food_to_database_try, connect. rewrite F. reflexivity.
  - unfold lookup_food, lookup_food_try, connect. rewrite F. reflexivity.
  - unfold log_food_intake, log_food_intake_try, connect. rewrite F. reflexivity.
  - unfold review_meals, review_meals_try, connect. rewrite F. reflexivity.
  - unfold get_database_info, get_database_info_try, connect.
    destruct (db_file e); [|congruence]. rewrite F. reflexivity.
  - unfold get_database_info, get_database_info_try.
    match goal with H : db_file e = None |- _ => rewrite H end. reflexivity.
Qed.

End Errors.

Section Counts.

Context {rt : Runtime}.

Lemma distinct_length_le (l : list str) : (List.length (distinct l) <= List.length l)%nat.
Proof.
  induction l as [|x l IH]; simpl; [lia|].
  pose proof (filter_length_le (fun y => negb (str_eqb y x)) (distinct l)). lia.
Qed.

Lemma filter_all {A} (p : A -> bool) (l : list A) :
  (forall x, In x l -> p x = true) -> List.filter p l = l.
Proof.
  induction l as [|x l IH]; intros H; simpl; [reflexivity|].
  rewrite (H x (or_introl eq_refl)), IH; [reflexivity|].
  intros y Hy. apply H. right. exact Hy.
Qed.

Lemma distinct_In (l : list str) (x : str) : In x (distinct l) -> In x l.
Proof.
  induction l as [|y l IH]; simpl; [tauto|].
  intros [H|H]; [auto|]. apply filter_In in H. right. apply IH, H.
Qed.

Lemma distinct_NoDup (l : list str) : NoDup l -> distinct l = l.
Proof.
  induction 1 as [|x l Hx Hl IH]; simpl; [reflexivity|].
  rewrite IH. f_equal. apply filter_all. intros y Hy.
  apply negb_true_iff, str_eqb_neq. intros ->. contradiction.
Qed.

Lemma unique_dates_NoDup (l : list goal) :
  (forall d, (List.length (List.filter (fun g => str_eqb (g_date g) d) l) <= 1)%nat) ->
  NoDup (List.map g_date l).
Proof.
  induction l as [|g l IH]; intros U; simpl; constructor.
  - intros Hin. apply in_map_iff in Hin. destruct Hin as (g' & E & Hg').
    specialize (U (g_date g)). simpl in U. rewrite str_eqb_refl in U. simpl in U.
    assert (Hin : In g' (List.filter (fun g0 => str_eqb (g_date g0) (g_date g)) l)).
    { apply filter_In. split; [exact Hg'|]. apply str_eqb_eq, E. }
    destruct (List.filter _ l); [contradiction|]. simpl in U. lia.
  - apply IH. intros d. specialize (U d). simpl in U.
    destruct (str_eqb (g_date g) d); simpl in U; lia.
Qed.

Lemma count_goal_days_unique (s : db) :
  unique_dates s -> count_goal_days s = N.of_nat (List.length (daily_goals s)).
Proof.
  intros U. unfold count_goal_days.
  rewrite distinct_NoDup by (apply unique_dates_NoDup, U).
  rewrite length_map. reflexivity.
Qed.

Lemma existsb_filter_length (d : str) (l : list goal) :
  (List.length (List.filter (fun g => str_eqb (g_date g) d) l) <= 1)%nat ->
  List.length (List.filter (fun g => str_eqb (g_date g) d) l)
  = if List.existsb (fun g => str_eqb (g_date g) d) l then 1%nat else 0%nat.
Proof.
  induction l as [|g l IH]; simpl; [reflexivity|].
  destruct (str_eqb (g_date g) d); simpl; intros H.
  - destruct (List.filter _ l); simpl in *; [reflexivity | lia].
  - apply IH, H.
Qed.

(** X10.  The report of Get Store Info.  Without the file it ends after
    the line on existence and the store is not opened; with the file
    and a working storage layer it gives the size and three counts: the
    number of foods, the number of intake entries and the number of
    distinct dates with a goal; on a store with at most one goal per
    date the last one is the number of goal rows.  The store is as it
    was in every case. *)
Theorem get_database_info_report :
  forall (e : env) (s : db),
    (db_file e = None ->
     get_database_info e s = (s, info_head (CROSS_MARK ++ lit " No")))
    /\
    (forall size : N,
        db_file e = Some size ->
        fault e = None ->
        get_database_info e s
        = (s, info_head (CHECK_MARK ++ lit " Yes") ++
              lit "Size: " ++ decimal size ++ lit " bytes" ++ NL ++
              info_contents (List.length (foods s)) (List.length (daily_intake s))
                (List.length (distinct (List.map g_date (daily_goals s))))))
    /\
    (unique_dates s ->
     List.length (distinct (List.map g_date (daily_goals s)))
     = List.length (daily_goals s)).
Proof.
  intros e s. split; [|split].
  - intros H. unfold get_database_info, get_database_info_try. rewrite H. reflexivity.
  - intros size H F. unfold get_database_info, get_database_info_try, connect.
    rewrite H, F. cbn [bind]. unfold info_head, info_contents, count_foods, count_intake,
      count_goal_days. repeat rewrite <- app_assoc. reflexivity.
  - intros U. rewrite distinct_NoDup by (apply unique_dates_NoDup, U).
    apply length_map.
Qed.

(** X11.  How the counts of Get Store Info move with a call: the number
    of foods grows by one with a Register Food that did not fail, the
    number of intake entries by one with a Log Intake that did not
    fail, and, on a store with at most one goal per date, the number of
    goal days by one with a Set Daily Goal that did not fail and whose
    date had no goal; no other call changes them. *)
Theorem counts_follow_calls :
  forall (e : env) (c : call) (s : db),
    count_foods (fst (invoke e c s))
    = (count_foods s +
       match c with
       | AddFoodToDatabase _ _ _ _ _ => if fails e c s then 0 else 1
       | _ => 0
       end)%N
    /\
    count_intake (fst (invoke e c s))
    = (count_intake s +
       match c with
       | LogFoodIntake _ _ _ _ _ _ _ _ => if fails e c s then 0 else 1
       | _ => 0
       end)%N
    /\
    (unique_dates s ->
     count_goal_days (fst (invoke e c s))
     = (count_goal_days s +
        if negb (fails e c s) && sets_new_date e c s then 1 else 0)%N).
Proof.
  intros e c s. split; [|split].
  - unfold count_foods. rewrite invoke_registered, length_app, Nat2N.inj_add.
    f_equal. destruct c; cbn [registered]; try reflexivity.
    destruct (fails e _ s); reflexivity.
  - unfold count_intake. rewrite invoke_logged, length_app, Nat2N.inj_add.
    f_equal. destruct c; cbn [logged]; try reflexivity.
    destruct (fails e _ s); reflexivity.
  - intros U.
    rewrite (count_goal_days_unique _ (invoke_unique e c s U)), (count_goal_days_unique s U).
    destruct c;
      try (rewrite invoke_daily_goals by discriminate; cbn [sets_new_date];
           rewrite andb_false_r, N.add_0_r; reflexivity).
    cbn [invoke sets_new_date].
    destruct (fails e _ s) eqn:F; cbn [negb andb].
    + rewrite set_daily_goals_failed by exact F. rewrite N.add_0_r. reflexivity.
    + rewrite set_daily_goals_done by exact F. cbn [daily_goals with_daily_goals].
      rewrite length_app. cbn [List.length].
      pose proof (filter_length (fun g => str_eqb (g_date g) (or_default date_str (today e)))
                    (daily_goals s)) as L.
      rewrite (existsb_filter_length _ _ (U (or_default date_str (today e)))) in L.
      destruct (List.existsb _ (daily_goals s)); cbn [negb]; lia.
Qed.

End Counts.

Section Readers.

Context {rt : Runtime}.

Lemma lookup_food_of_foods e name s s' :
  foods s' = foods s -> snd (lookup_food e name s') = snd (lookup_food e name s).
Proof.
  intros H. unfold lookup_food, lookup_food_try, select_foods_like, select_foods_by_name.
  rewrite H. destruct (connect e); cbn [bind]; [|reflexivity].
  destruct (truthy name); [|reflexivity].
  destruct (List.filter _ (foods s)); reflexivity.
Qed.

Lemma review_meals_of_entries e d s s' :
  entries_for (or_default d (today e)) s' = entries_for (or_default d (today e)) s ->
  snd (review_meals e d s') = snd (review_meals e d s).
Proof.
  intros H. unfold review_meals, review_meals_try, select_meals.
  unfold entries_for in H. rewrite H. destruct (connect e); cbn [bind]; [|reflexivity].
  destruct (order_by meal_leb _); reflexivity.
Qed.

(** X12.  What the two listings depend on.  The reply of Lookup Food is
    the same after a call as before it, unless the call is a Register
    Food that did not fail; the reply of Review Meals for a date is the
    same after a call as before it, unless the call is a Log Intake for
    that date that did not fail. *)
Theorem listings_change_with_their_rows_only :
  forall (e : env) (c : call) (s : db) (e' : env),
    (forall name : option str,
        match c with
        | AddFoodToDatabase _ _ _ _ _ => fails e c s = true
        | _ => True
        end ->
        snd (lookup_food e' name (fst (invoke e c s))) = snd (lookup_food e' name s))
    /\
    (forall d : str,
        logs_for d e c = false \/ fails e c s = true ->
        snd (review_meals e' (Some d) (fst (invoke e c s)))
        = snd (review_meals e' (Some d) s)).
Proof.
  intros e c s e'. split.
  - intros name H. apply lookup_food_of_foods. rewrite invoke_registered.
    destruct c; cbn [registered]; try apply app_nil_r.
    rewrite H. apply app_nil_r.
  - intros d H. apply review_meals_of_entries. cbn [or_default].
    unfold entries_for. rewrite invoke_logged, filter_app.
    destruct c; cbn [logged]; try apply app_nil_r.
    destruct (fails e _ s) eqn:F; [apply app_nil_r|].
    destruct H as [H|H]; [|discriminate].
    cbn [logs_for] in H. cbn [List.filter i_date]. rewrite H. apply app_nil_r.
Qed.




End Readers.

Section MigrationReading.

Import Schema.

Context {rt : Runtime}.




End MigrationReading.

Section Writers.

Context {rt : Runtime}.

(** X15.  Log Intake does not look at what is stored: whether it fails
    depends on the storage fault and on NaN among its numbers only, so
    the same entry logged twice is stored twice, as two rows with ids
    one after the other. *)
Theorem log_food_intake_never_deduplicates :
  forall (e e' : env) (food_name : str) (calories protein carbs fat : float)
         (portion_description : str) (meal_type date_str : option str) (s : db),
    fails e (LogFoodIntake food_name calories protein carbs fat portion_description
               meal_type date_str) s = false ->
    fault e' = None ->
    let log := fun e s => fst (log_food_intake e food_name calories protein carbs fat
                                 portion_description meal_type date_str s) in
    let row := fun e id =>
      mkIntake id (or_default date_str (today e)) food_name portion_description
        (normal calories) (normal protein) (normal carbs) (normal fat)
        (or_default meal_type (lit "other")) (now e) in
    daily_intake (log e' (log e s))
    = daily_intake s ++ [row e (daily_intake_seq s + 1)%Z; row e' (daily_intake_seq s + 2)%Z].
Proof.
  intros e e' food_name calories protein carbs fat portion_description meal_type date_str s
         F F' log row. subst log row. cbn beta.
  assert (F2 : forall s', fails e' (LogFoodIntake food_name calories protein carbs fat
                                      portion_description meal_type date_str) s' = false).
  { intros s'. rewrite log_food_intake_fails in *. rewrite F'.
    destruct (fault e); [discriminate | exact F]. }
  rewrite (log_food_intake_done e') by apply F2.
  rewrite (log_food_intake_done e) by exact F.
  cbn [daily_intake daily_intake_seq with_daily_intake].
  rewrite <- app_assoc. cbn [app].
  replace (daily_intake_seq s + 1 + 1)%Z with (daily_intake_seq s + 2)%Z by lia.
  reflexivity.
Qed.

(** X16.  Each call writes its own table at most: only Set Daily Goal
    changes [daily_goals], only Register Food changes [foods], only Log
    Intake changes [daily_intake], and Lookup Food, Review Meals and
    Get Store Info change nothing. *)
Theorem calls_write_their_table_only :
  forall (e : env) (c : call) (s : db),
    match c with
    | SetDailyGoals _ _ _ _ _ =>
        foods (fst (invoke e c s)) = foods s
        /\ daily_intake (fst (invoke e c s)) = daily_intake s
    | AddFoodToDatabase _ _ _ _ _ =>
        daily_goals (fst (invoke e c s)) = daily_goals s
        /\ daily_intake (fst (invoke e c s)) = daily_intake s
    | LogFoodIntake _ _ _ _ _ _ _ _ =>
        foods (fst (invoke e c s)) = foods s
        /\ daily_goals (fst (invoke e c s)) = daily_goals s
    | LookupFood _ | GetDatabaseInfo | ReviewMeals _ => fst (invoke e c s) = s
    end.
Proof.
  intros e c s. destruct c.
  - split.
    + rewrite invoke_registered. apply app_nil_r.
    + apply invoke_daily_intake. discriminate.
  - split.
    + apply invoke_daily_goals. discriminate.
    + apply invoke_daily_intake. discriminate.
  - apply lookup_food_reads.
  - split.
    + rewrite invoke_registered. apply app_nil_r.
    + apply invoke_daily_goals. discriminate.
  - apply get_database_info_reads.
  - apply review_meals_reads.
Qed.

End Writers.

(* ================================================================== *)
(** * The further properties on the sample run *)

Section MoreSamples.

Local Existing Instance sample_runtime.

Lemma add_food_to_database_new_or_duplicate_witness :
  add_food_to_database (later 700) (lit "banana") 90 1 23 0.3 evening
  = (evening, already_exists (lit "banana"))
  /\ foods (fst (add_food_to_database (later 700) (lit "Banana") 90 1 23 0.3 evening))
     = [banana_row; mkFood 2 (lit "Banana") 90 1 23 0.3 (now (later 700))].
Proof.
  pose proof (add_food_to_database_new_or_duplicate (later 700) (lit "banana") 90 1 23 0.3
                evening eq_refl eq_refl)%float as (Hdup & _ & _).
  pose proof (add_food_to_database_new_or_duplicate (later 700) (lit "Banana") 90 1 23 0.3
                evening eq_refl eq_refl)%float as (_ & Hnew & _).
  split.
  - apply Hdup. left. reflexivity.
  - rewrite Hnew; [reflexivity|]. intros [H|[]]. discriminate H.
Defined.


Lemma row_ids_increase_witness :
  NoDup (List.map f_id (foods evening))
  /\ NoDup (List.map g_id (daily_goals evening))
  /\ NoDup (List.map i_id (daily_intake evening)).
Proof.
  apply (row_ids_increase fresh sample_day).
  repeat split; constructor.
Defined.

Lemma set_daily_goals_rejects_nan_witness :
  exists column,
    In column ["daily_goals.target_calories"; "daily_goals.target_protein";
               "daily_goals.target_carbs"; "daily_goals.target_fat"]%string
    /\ set_daily_goals (later 700) 1800 nan 200 60 None evening
       = (evening, CROSS_MARK ++ lit " Error setting goals: " ++
                   lit "NOT NULL constraint failed: " ++ lit column).
Proof.
  exact (set_daily_goals_rejects_nan (later 700) 1800 nan 200 60 None evening
           eq_refl eq_refl)%float.
Defined.

Lemma log_food_intake_rejects_nan_witness :
  exists column,
    In column ["daily_intake.calories"; "daily_intake.protein";
               "daily_intake.carbs"; "daily_intake.fat"]%string
    /\ log_food_intake (later 700) (lit "soup") 120 4 nan 3 (lit "1 bowl") None None evening
       = (evening, CROSS_MARK ++ lit " Error logging food: " ++
                   lit "NOT NULL constraint failed: " ++ lit column).
Proof.
  exact (log_food_intake_rejects_nan (later 700) (lit "soup") 120 4 nan 3 (lit "1 bowl")
           None None evening eq_refl eq_refl)%float.
Defined.

Lemma storage_fault_is_reported_witness :
  review_meals locked None evening
  = (evening, CROSS_MARK ++ lit " Error reviewing meals: database is locked")
  /\ get_database_info locked evening
     = (evening, CROSS_MARK ++ lit " Error getting database info: database is locked").
Proof.
  pose proof (storage_fault_is_reported locked (lit "database is locked") evening eq_refl)
    as (_ & _ & _ & _ & Hreview & Hinfo & _).
  split; [exact (Hreview None)|]. apply Hinfo. discriminate.
Defined.

Lemma get_database_info_report_witness :
  get_database_info (later 700) evening
  = (evening,
     info_head (CHECK_MARK ++ lit " Yes") ++ lit "Size: 20480 bytes" ++ NL ++
     info_contents 1 4 1)
  /\ get_database_info (mkEnv sample_date 0 None None) evening
     = (evening, info_head (CROSS_MARK ++ lit " No")).
Proof.
  pose proof (get_database_info_report (later 700) evening) as (_ & Hyes & _).
  pose proof (get_database_info_report (mkEnv sample_date 0 None None) evening)
    as (Hno & _ & _).
  split; [exact (Hyes 20480%N eq_refl eq_refl) | exact (Hno eq_refl)].
Defined.



Lemma log_food_intake_never_deduplicates_witness :
  List.map i_id
    (daily_intake (fst (invoke (later 61) banana (fst (invoke sample_env banana empty_db)))))
  = [1%Z; 2%Z]
  /\ List.map i_food_name
       (daily_intake (fst (invoke (later 61) banana (fst (invoke sample_env banana empty_db)))))
     = [lit "banana"; lit "banana"].
Proof.
  pose proof (log_food_intake_never_deduplicates sample_env (later 61) (lit "banana")
                89 1.1 23 0.3 (lit "1 medium") (Some (lit "snack")) (Some sample_date)
                empty_db eq_refl eq_refl)%float as H.
  cbv zeta in H. unfold banana. cbn [invoke]. rewrite H. split; reflexivity.
Defined.

End MoreSamples.
